(** * Text analysis tool (main.py): a shallow embedding and its properties

    The development follows the layout of [main.py]:
    - [Py]: the pieces of the Python runtime the program relies on
      (strings as sequences of code points, [str.lower], [str.splitlines],
      [collections.Counter], binary64 floats);
    - [Regex]: the fragment of the [re] engine that the two patterns of the
      program exercise (character sets, [\b], greedy [+] with backtracking,
      [search] and [findall]);
    - the core analysis functions [detect_language], [tokenize_text],
      [analyze_sentiment], [analyze_file], and the driver under
      [if __name__ == "__main__"].

    The third-party models (jieba, SnowNLP, TextBlob, VADER), the file
    system and the libraries that draw the chart and write the reports
    (matplotlib, csv, reportlab) are not part of the program: they are taken
    as records of functions whose calls either return a value or raise. *)

From Stdlib Require Import String ZArith List Bool Floats Lia.
From stdpp Require Import gmap list sorting.
Import ListNotations.

Set Warnings "-inexact-float".

(** ** The Python runtime *)

Module Py.

Local Open Scope Z_scope.

(** A [str] is a sequence of Unicode code points. *)
Abbreviation char := Z (only parsing).
Abbreviation str := (list Z) (only parsing).

(** An ASCII literal as a [str] (used for tags and for examples). *)
Fixpoint of_string (s : String.string) : str :=
  match s with
  | String.EmptyString => []
  | String.String a s' => Z.of_N (Ascii.N_of_ascii a) :: of_string s'
  end.

(** Closed interval test on code points. *)
Definition between (lo hi c : char) : bool := (lo <=? c) && (c <=? hi).

Definition is_ascii_upper (c : char) : bool := between 65 90 c.
Definition is_ascii_lower (c : char) : bool := between 97 122 c.
Definition is_ascii_digit (c : char) : bool := between 48 57 c.

(** The tables of the Unicode database that [str.lower] and the [\w]
    category of [re] consult for code points outside ASCII. *)
Record Unicode := {
  (** [_PyUnicode_ToLowerFull]: the full lower-case mapping (one to three
      code points). *)
  to_lower_full : char -> str;
  (** The Final_Sigma context test applied to U+03A3, given the code points
      before (nearest first) and after it. *)
  final_sigma : str -> str -> bool;
  (** [Py_UNICODE_ISALNUM]. *)
  isalnum : char -> bool
}.

Section WithUnicode.
Context (U : Unicode).

(** Lower-casing of one code point in its context ([lower_ucs4]). *)
Definition lower_char (before : str) (c : char) (after : str) : str :=
  if c =? 931 then [if final_sigma U before after then 962 else 963]
  else if is_ascii_upper c then [c + 32]
  else if c <? 128 then [c]
  else to_lower_full U c.

Fixpoint lower_from (before : str) (s : str) : str :=
  match s with
  | [] => []
  | c :: s' => lower_char before c s' ++ lower_from (c :: before) s'
  end.

(** [s.lower()] *)
Definition lower (s : str) : str := lower_from [] s.

(** The [\w] category of a [str] pattern: alphanumeric or underscore. *)
Definition is_word (c : char) : bool :=
  if c <? 128
  then is_ascii_upper c || is_ascii_lower c || is_ascii_digit c || (c =? 95)
  else isalnum U c.

End WithUnicode.

(** Line boundaries recognised by [str.splitlines]. *)
Definition is_linebreak (c : char) : bool :=
  between 10 13 c || between 28 30 c || (c =? 133) || (c =? 8232) || (c =? 8233).

(** [len(s.splitlines())]: [open_line] tells whether characters of an
    unterminated line have been read; CR LF counts as one boundary. *)
Fixpoint count_lines (open_line : bool) (s : str) : nat :=
  match s with
  | [] => if open_line then 1%nat else 0%nat
  | c :: s' =>
      if is_linebreak c then
        match c, s' with
        | 13, 10 :: s'' => S (count_lines false s'')
        | _, _ => S (count_lines false s')
        end
      else count_lines true s'
  end.

(** [Counter(iterable)]: each element bumps its count, starting from 0. *)
Definition count_element (m : gmap (list Z) nat) (w : str) : gmap (list Z) nat :=
  <[w := S (default 0%nat (m !! w))]> m.

Definition Counter (l : list str) : gmap (list Z) nat :=
  foldl count_element ∅ l.

(** [sum(c.values())] *)
Definition sum_values (m : gmap (list Z) nat) : nat :=
  map_fold (fun _ v acc => (v + acc)%nat) 0%nat m.

(** An exception, identified by its message [str(e)]. *)
Definition exn := str.

(** The outcome of a call into code that may raise. *)
Inductive result (A : Type) : Type :=
| Return (a : A)
| Raise (e : exn).
Arguments Return {A} a.
Arguments Raise {A} e.

End Py.
Import Py.

(** ** The fragment of the [re] engine used by the program

    A compiled pattern is a sequence of nodes, named after the opcodes of the
    engine.  Matching is by backtracking: [MaxRepeat1] is greedy, it first
    tries to take one more character and falls back to the rest of the
    pattern only when that fails. *)

Module Regex.

Local Open Scope Z_scope.

Inductive node : Type :=
| AtBoundary                       (* \b *)
| In (set : char -> bool)          (* [...] *)
| MaxRepeat1 (set : char -> bool). (* [...]+ *)

Section WithUnicode.
Context (U : Unicode).

Definition word_before (prev : option char) : bool :=
  match prev with Some c => is_word U c | None => false end.

Definition word_at (s : str) : bool :=
  match s with c :: _ => is_word U c | [] => false end.

(** [\b] holds where exactly one of the two neighbours is a word
    character; the outside of the string counts as a non-word. *)
Definition at_boundary (prev : option char) (s : str) : bool :=
  xorb (word_before prev) (word_at s).

(** A successful match: the matched text and the text after it. *)
Definition matched : Type := option (str * str).

Definition consume (c : char) (r : matched) : matched :=
  match r with
  | Some (m, rest) => Some (c :: m, rest)
  | None => None
  end.

Fixpoint max_repeat1 (set : char -> bool)
    (k : option char -> str -> matched) (s : str) : matched :=
  match s with
  | c :: s' =>
      if set c then
        match max_repeat1 set k s' with
        | Some (m, rest) => Some (c :: m, rest)
        | None => consume c (k (Some c) s')
        end
      else None
  | [] => None
  end.

(** [exec p prev s]: match [p] at the position whose preceding character
    is [prev] and whose remaining text is [s]. *)
Fixpoint exec (p : list node) (prev : option char) (s : str) : matched :=
  match p with
  | [] => Some ([], s)
  | AtBoundary :: p' => if at_boundary prev s then exec p' prev s else None
  | In set :: p' =>
      match s with
      | c :: s' => if set c then consume c (exec p' (Some c) s') else None
      | [] => None
      end
  | MaxRepeat1 set :: p' => max_repeat1 set (exec p') s
  end.

(** [re.search(p, s) is not None]: some position admits a match. *)
Fixpoint search_from (p : list node) (prev : option char) (s : str) : bool :=
  match exec p prev s with
  | Some _ => true
  | None =>
      match s with
      | [] => false
      | c :: s' => search_from p (Some c) s'
      end
  end.

Definition search (p : list node) (s : str) : bool := search_from p None s.

(** [re.findall(p, s)] for a pattern without groups: the matches from left
    to right, each search resuming where the previous match ended.
    [skip] counts the characters still covered by the previous match. *)
Fixpoint findall_from (p : list node) (prev : option char) (skip : nat)
    (s : str) : list str :=
  match s with
  | [] =>
      match skip, exec p prev [] with
      | O, Some (m, _) => [m]
      | _, _ => []
      end
  | c :: s' =>
      match skip with
      | S k => findall_from p (Some c) k s'
      | O =>
          match exec p prev s with
          | Some (m, _) => m :: findall_from p (Some c) (Nat.pred (length m)) s'
          | None => findall_from p (Some c) O s'
          end
      end
  end.

Definition findall (p : list node) (s : str) : list str :=
  findall_from p None O s.

End WithUnicode.

End Regex.

(** ** Core analysis module *)

Local Open Scope Z_scope.

Inductive Language : Type := zh | en.

(** The character set [[一-龥]]. *)
Definition cjk_set (c : char) : bool := between 19968 40869 c.

(** The character set [[a-zA-Z]]. *)
Definition letter_set (c : char) : bool := is_ascii_lower c || is_ascii_upper c.

(** [r'[一-龥]'] *)
Definition cjk_pattern : list Regex.node := [Regex.In cjk_set].

(** [r'\b[a-zA-Z]+\b'] *)
Definition word_pattern : list Regex.node :=
  [Regex.AtBoundary; Regex.MaxRepeat1 letter_set; Regex.AtBoundary].

(** The third-party models.  Each field stands for the expression named in
    its comment, constructor call included; evaluating it returns a value or
    raises. *)
Record vader_scores : Type := {
  neg : float;
  neu : float;
  pos : float;
  compound : float
}.

Record Models : Type := {
  (** [list(jieba.cut(text))] *)
  jieba_cut : str -> result (list str);
  (** [SnowNLP(text).sentiments] *)
  snownlp_sentiments : str -> result float;
  (** [SnowNLP(text).tags], as the list of its (word, tag) pairs *)
  snownlp_tags : str -> result (list (str * str));
  (** [SentimentIntensityAnalyzer().polarity_scores(text)] *)
  vader_polarity_scores : str -> result vader_scores;
  (** [TextBlob(text).sentiment.polarity] *)
  textblob_polarity : str -> result float;
  (** [TextBlob(text).tags] *)
  textblob_tags : str -> result (list (str * str))
}.

Section Core.
Context (U : Unicode) (M : Models).

(** [detect_language(text)] (main.py, lines 33-35) *)
Definition detect_language (text : str) : Language :=
  if Regex.search U cjk_pattern text then zh else en.

(** [tokenize_text(text, language)] (lines 38-43) *)
Definition tokenize_text (text : str) (lang : Language) : result (list str) :=
  match lang with
  | zh => jieba_cut M text
  | en => Return (Regex.findall U word_pattern (lower U text))
  end.

End Core.

(** *** Sentiment analysis *)

Inductive Polarity : Type := Positive | Negative | Neutral.

Record Intensity : Type := {
  i_positive : float;
  i_negative : float;
  i_neutral : float
}.

(** The dictionary [analysis] of [analyze_sentiment]. *)
Record Sentiment : Type := {
  score : float;
  polarity : Polarity;
  intensity : Intensity;
  keywords : list (str * str)
}.

(** Lines written to the console, up to formatting. *)
Inductive message : Type :=
| Analyzing
| SentimentError (e : exn)
| AnalysisFailed (e : exn)
| Summary (l : Language) (p : Polarity) (s : float)
| ChartSaved
| CsvExported
| PdfExported
| Finished.

(** Statements that run inside the [try] block of [analyze_sentiment]: they
    read and update the dictionary in place and may raise; what was assigned
    before an exception stays assigned. *)
Definition Try (A : Type) : Type := Sentiment -> result A * Sentiment.

Global Instance Try_ret : MRet Try := fun A a s => (Return a, s).

Global Instance Try_bind : MBind Try := fun A B f m s =>
  match m s with
  | (Return a, s') => f a s'
  | (Raise e, s') => (Raise e, s')
  end.

(** A call into a model. *)
Definition call {A : Type} (r : result A) : Try A := fun s => (r, s).

(** [analysis['score']] *)
Definition get_score : Try float := fun s => (Return (score s), s).

(** [analysis['score'] = x] and its siblings. *)
Definition set_score (x : float) : Try unit := fun s =>
  (Return tt, {| score := x; polarity := polarity s;
                 intensity := intensity s; keywords := keywords s |}).

Definition set_polarity (p : Polarity) : Try unit := fun s =>
  (Return tt, {| score := score s; polarity := p;
                 intensity := intensity s; keywords := keywords s |}).

Definition set_intensity (i : Intensity) : Try unit := fun s =>
  (Return tt, {| score := score s; polarity := polarity s;
                 intensity := i; keywords := keywords s |}).

Definition set_keywords (k : list (str * str)) : Try unit := fun s =>
  (Return tt, {| score := score s; polarity := polarity s;
                 intensity := intensity s; keywords := k |}).

(** The initial value of [analysis].  The three zeros are the integers 0 in
    the source; the float 0.0, which is equal to them, stands for them here. *)
Definition default_sentiment : Sentiment :=
  {| score := 0.5%float;
     polarity := Neutral;
     intensity := {| i_positive := 0%float; i_negative := 0%float; i_neutral := 0%float |};
     keywords := [] |}.

(** [tag in ['a', 'ad', 'ag', 'an']] *)
Definition zh_adjective_tag (tag : str) : bool :=
  bool_decide (tag ∈ [of_string "a"%string; of_string "ad"%string;
                        of_string "ag"%string; of_string "an"%string]).

(** [tag.startswith('JJ')] *)
Definition en_adjective_tag (tag : str) : bool :=
  match tag with
  | 74 :: 74 :: _ => true
  | _ => false
  end.

Section Sentiment.
Context (M : Models).

(** The two branches of [if language == 'zh'], statement by statement.  In
    the English branch VADER runs first (lines 65-66); TextBlob's sentiment is
    computed when line 69 reads it. *)
Definition score_zh (text : str) : Try unit :=
  s ← call (snownlp_sentiments M text);
  set_score s;;
  tags ← call (snownlp_tags M text);
  set_keywords (List.filter (fun wt => zh_adjective_tag (snd wt)) tags).

Definition score_en (text : str) : Try unit :=
  vader ← call (vader_polarity_scores M text);
  p ← call (textblob_polarity M text);
  set_score ((p + compound vader) / 2)%float;;
  set_intensity {| i_positive := pos vader;
                   i_negative := neg vader;
                   i_neutral := neu vader |};;
  tags ← call (textblob_tags M text);
  set_keywords (List.filter (fun wt => en_adjective_tag (snd wt)) tags).

(** The [if] / [elif] on [analysis['score']] that ends the [try] block. *)
Definition classify : Try unit :=
  s ← get_score;
  if (0.6 <? s)%float then set_polarity Positive
  else if (s <? 0.4)%float then set_polarity Negative
  else mret tt.

Definition try_block (text : str) (lang : Language) : Try unit :=
  match lang with
  | zh => score_zh text
  | en => score_en text
  end;;
  classify.

(** [analyze_sentiment(text, language)] (lines 46-88): the returned dictionary
    and what the [except] clause printed. *)
Definition analyze_sentiment (text : str) (lang : Language)
    : Sentiment * list message :=
  match try_block text lang default_sentiment with
  | (Return _, analysis) => (analysis, [])
  | (Raise e, analysis) => (analysis, [SentimentError e])
  end.

(** A call of [analyze_sentiment] during which nothing raised: the
    [except] clause printed nothing. *)
Definition completed (text : str) (lang : Language) : Prop :=
  snd (analyze_sentiment text lang) = [].

End Sentiment.

(** *** The main analysis function *)

(** The file system, as far as [analyze_file] touches it. *)
Record Env : Type := {
  (** [open(path, 'r', encoding='utf-8')] followed by [f.read()] *)
  read_text : str -> result str;
  (** [os.path.basename(path)] *)
  basename : str -> str;
  (** [os.path.getsize(path)] *)
  getsize : str -> result Z
}.

(** The dictionary [stats] as [analyze_file] returns it. *)
Record Stats : Type := {
  file_name : str;
  file_size : Z;
  char_count : nat;
  line_count : nat;
  language : Language;
  words : list str;
  word_count : nat;
  word_freq : gmap (list Z) nat;
  sentiment : Sentiment
}.

Global Instance result_ret : MRet result := fun A a => Return a.

Global Instance result_bind : MBind result := fun A B f r =>
  match r with
  | Return a => f a
  | Raise e => Raise e
  end.

Section Orchestrator.
Context (U : Unicode) (M : Models) (E : Env).

(** The body of the [try] block of [analyze_file]: the statistics together
    with what [analyze_sentiment] printed, or the exception that ended it. *)
Definition analyze_file_body (file_path : str) : result (Stats * list message) :=
  content ← read_text E file_path;
  let name := basename E file_path in
  size ← getsize E file_path;
  let lang := detect_language U content in
  tokens ← tokenize_text U M content lang;
  let '(analysis, printed) := analyze_sentiment M content lang in
  mret ({| file_name := name;
           file_size := size;
           char_count := length content;
           line_count := count_lines false content;
           language := lang;
           words := tokens;
           word_count := length tokens;
           word_freq := Counter tokens;
           sentiment := analysis |}, printed).

(** [analyze_file(file_path)] (lines 91-120): [None] stands for Python's
    [None]. *)
Definition analyze_file (file_path : str) : option Stats * list message :=
  match analyze_file_body file_path with
  | Return (stats, printed) => (Some stats, printed)
  | Raise e => (None, [AnalysisFailed e])
  end.

End Orchestrator.

(** ** The data of the chart

    [generate_charts] reads the ten most common words off [stats['word_freq']].
    A [Counter] is a dictionary and keeps its keys in insertion order, which
    [most_common] falls back on between equal counts; the order is that of the
    first occurrences in [stats['words']], from which the counter was built. *)

(** One step of [Counter(iterable)] on the (key, count) pairs in insertion
    order: a known key is bumped in place, a new one is appended. *)
Fixpoint bump (w : str) (items : list (list Z * nat)) : list (list Z * nat) :=
  match items with
  | [] => [(w, 1%nat)]
  | (k, n) :: rest =>
      if bool_decide (k = w) then (k, S n) :: rest else (k, n) :: bump w rest
  end.

(** [list(Counter(l).items())] *)
Definition counter_items (l : list str) : list (list Z * nat) :=
  foldl (fun items w => bump w items) [] l.

(** Insertion into a list sorted by decreasing count, after the entries
    whose count is strictly larger. *)
Fixpoint insert_by_count (x : list Z * nat) (sorted : list (list Z * nat))
    : list (list Z * nat) :=
  match sorted with
  | [] => [x]
  | y :: rest =>
      if (snd x <? snd y)%nat then y :: insert_by_count x rest
      else x :: y :: rest
  end.

(** [sorted(items, key=itemgetter(1), reverse=True)]: the sort is stable, so
    entries with equal counts keep their order. *)
Definition sorted_by_count (items : list (list Z * nat)) : list (list Z * nat) :=
  foldr insert_by_count [] items.

(** [c.most_common(n)], that is [heapq.nlargest(n, c.items(), key=count)],
    which is [sorted(c.items(), key=count, reverse=True)[:n]]. *)
Definition most_common (n : nat) (items : list (list Z * nat))
    : list (list Z * nat) :=
  take n (sorted_by_count items).

(** The arguments of the plotting calls of lines 132-153: the horizontal
    bars with their title and axis label, and the pie. *)
Record Figure : Type := {
  bar_labels : list str;
  bar_values : list nat;
  bar_title : str;
  bar_xlabel : str;
  pie_values : list float;
  pie_labels : list str;
  pie_title : str
}.

(** The figure that [generate_charts] asks for, once the guard of lines
    128-129 has let [stats] through. *)
Definition figure_of (stats : Stats) : Figure :=
  let top_words := most_common 10 (counter_items (words stats)) in
  {| bar_labels := map fst top_words;
     bar_values := map snd top_words;
     bar_title :=
       match language stats with
       | zh => of_string "Top 10 High Frequency words"%string
       | en => of_string "Top 10 Words"%string
       end;
     bar_xlabel :=
       match language stats with
       | zh => of_string "Occurrences"%string
       | en => of_string "Count"%string
       end;
     pie_values :=
       match language stats with
       | zh => [score (sentiment stats); (1 - score (sentiment stats))%float]
       | en => [i_positive (intensity (sentiment stats));
                i_negative (intensity (sentiment stats));
                i_neutral (intensity (sentiment stats))]
       end;
     pie_labels :=
       match language stats with
       | zh => [of_string "positive"%string; of_string "negative"%string]
       | en => [of_string "Positive"%string; of_string "Negative"%string;
                of_string "Neutral"%string]
       end;
     pie_title := of_string "Emotional distribution"%string |}.

(** ** Chart and report modules, and the main program

    matplotlib, the [csv] module and reportlab are outside the program.  Each
    block of calls into them is a function of the data the program hands
    over: the block returns when every call in it returned, and raises the
    first exception otherwise.  None of these calls is inside a [try]. *)

Record World : Type := {
  (** Whether [analysis_result.png] exists when the program starts. *)
  figure_on_disk : bool;
  (** Lines 136-156: [plt.figure], the two subplots with the data of the
      figure, [plt.tight_layout] and [plt.savefig('analysis_result.png')]. *)
  plot : Figure -> result unit;
  (** Lines 170-181: [open('report.csv', 'w', ...)] and the rows written. *)
  write_csv : Stats -> result unit;
  (** Lines 186-206: the canvas of [report.pdf], its strings,
      [drawImage('analysis_result.png', ...)] and [save]; the flag tells
      whether [analysis_result.png] exists at that moment. *)
  write_pdf : bool -> Stats -> result unit
}.

(** What a run does to the outside world, in order: the lines it prints, the
    artifacts it has finished writing, and the exception that ends it when
    nothing catches it. *)
Inductive effect : Type :=
| Print (m : message)
| SaveFigure (stats : Stats)    (* analysis_result.png *)
| WriteCsv (stats : Stats)      (* report.csv *)
| WritePdf (stats : Stats)      (* report.pdf *)
| Uncaught (e : exn).           (* traceback and exit *)

(** Statements of the chart and report modules and of the main program: they
    add to the effects, may raise, and read and update the flag that tells
    whether [analysis_result.png] exists.  After an exception nothing follows. *)
Definition Run (A : Type) : Type := bool -> list effect * result (A * bool).

Global Instance Run_ret : MRet Run := fun A a png => ([], Return (a, png)).

Global Instance Run_bind : MBind Run := fun A B f m png =>
  match m png with
  | (out, Return (a, png')) => let '(out', r) := f a png' in (out ++ out', r)
  | (out, Raise e) => (out, Raise e)
  end.

(** [print(...)] *)
Definition print (m : message) : Run unit := fun png =>
  ([Print m], Return (tt, png)).

(** How a run ends: an exception that reached the top level is reported by
    the interpreter, which then exits. *)
Definition finish {A : Type} (r : list effect * result A) : list effect :=
  match r with
  | (out, Return _) => out
  | (out, Raise e) => out ++ [Uncaught e]
  end.

Section Artifacts.
Context (W : World).

(** The plotting calls of lines 132-156, up to [plt.savefig]. *)
Definition draw (stats : Stats) : Run unit := fun _ =>
  match plot W (figure_of stats) with
  | Return _ => ([SaveFigure stats], Return (tt, true))
  | Raise e => ([], Raise e)
  end.

(** [generate_charts(stats)] for a dictionary [stats] (lines 126-157). *)
Definition generate_charts (stats : Stats) : Run unit :=
  if (word_count stats =? 0)%nat then mret tt
  else draw stats;; print ChartSaved.

(** The [with] block of lines 170-181. *)
Definition csv_rows (stats : Stats) : Run unit := fun png =>
  match write_csv W stats with
  | Return _ => ([WriteCsv stats], Return (tt, png))
  | Raise e => ([], Raise e)
  end.

(** Lines 186-206. *)
Definition pdf_page (stats : Stats) : Run unit := fun png =>
  match write_pdf W png stats with
  | Return _ => ([WritePdf stats], Return (tt, png))
  | Raise e => ([], Raise e)
  end.

(** [export_report(stats, format)] for a dictionary [stats] (lines 163-207). *)
Definition export_report (stats : Stats) (format : str) : Run unit :=
  if bool_decide (format = of_string "csv"%string)
  then csv_rows stats;; print CsvExported
  else if bool_decide (format = of_string "pdf"%string)
  then pdf_page stats;; print PdfExported
  else mret tt.

End Artifacts.

Section Main.
Context (U : Unicode) (M : Models) (E : Env) (W : World).

(** The main program (lines 213-241), where the two [input] calls return
    [file_path] (stripped) and [choice] (lower-cased). *)
Definition main (file_path choice : str) : list effect :=
  let '(result, printed) := analyze_file U M E file_path in
  Print Analyzing :: map Print printed ++
  match result with
  | Some stats =>
      finish
        ((print (Summary (language stats) (polarity (sentiment stats))
                         (score (sentiment stats)));;
          generate_charts W stats;;
          (if bool_decide (choice ∈ [of_string "csv"%string; of_string "pdf"%string])
           then export_report W stats choice else mret tt);;
          print Finished)
           (figure_on_disk W))
  | None => []
  end.

End Main.

(** ** Reference definitions

    These follow the wording of the specification rather than the code; the
    theorems below compare the program with them. *)

(** The Unicode block named CJK Unified Ideographs, U+4E00 to U+9FFF. *)
Definition cjk_unified_ideographs (c : char) : bool := between 19968 40959 c.

(** Polarity as a function of the score, with the two fixed thresholds. *)
Definition polarity_of_score (s : float) : Polarity :=
  if (0.6 <? s)%float then Positive
  else if (s <? 0.4)%float then Negative
  else Neutral.

Definition in_unit_interval (s : float) : Prop :=
  (0 <=? s)%float = true /\ (s <=? 1)%float = true.

Fixpoint take_while {A : Type} (f : A -> bool) (l : list A) : list A :=
  match l with
  | x :: l' => if f x then x :: take_while f l' else []
  | [] => []
  end.

Fixpoint drop_while {A : Type} (f : A -> bool) (l : list A) : list A :=
  match l with
  | x :: l' => if f x then drop_while f l' else l
  | [] => []
  end.

Definition nonempty {A : Type} (l : list A) : bool :=
  match l with
  | [] => false
  | _ :: _ => true
  end.

Section Words.
Context (U : Unicode).

(** The text cut at every non-word character: the pieces between two
    consecutive cuts, empty ones included. *)
Fixpoint fields (s : str) : list str :=
  match s with
  | [] => [[]]
  | c :: s' =>
      if is_word U c then
        match fields s' with
        | r :: rs => (c :: r) :: rs
        | [] => [[c]]
        end
      else [] :: fields s'
  end.

(** The maximal runs of word characters, in document order. *)
Definition word_runs (s : str) : list str := List.filter nonempty (fields s).

(** The maximal runs of word characters that are made of ASCII letters
    only: runs of letters with a word boundary on both sides. *)
Definition letter_words (s : str) : list str :=
  List.filter (forallb letter_set) (word_runs s).



End Words.

(** Two sets of models return the same on a text. *)
Definition models_agree_on (M1 M2 : Models) (text : str) : Prop :=
  jieba_cut M1 text = jieba_cut M2 text
  /\ snownlp_sentiments M1 text = snownlp_sentiments M2 text
  /\ snownlp_tags M1 text = snownlp_tags M2 text
  /\ vader_polarity_scores M1 text = vader_polarity_scores M2 text
  /\ textblob_polarity M1 text = textblob_polarity M2 text
  /\ textblob_tags M1 text = textblob_tags M2 text.

(** ** Sample inputs *)

(** An excerpt of the Unicode tables: E WITH ACUTE in both cases, KELVIN SIGN,
    I WITH DOT ABOVE, and the ideographs U+4E00 to U+9FFF.  No sample text
    contains U+03A3. *)
Definition sample_unicode : Unicode :=
  {| to_lower_full := fun c =>
       if c =? 8490 then [107]
       else if c =? 304 then [105; 775]
       else if c =? 201 then [233]
       else [c];
     final_sigma := fun _ _ => false;
     isalnum := fun c =>
       bool_decide (c ∈ [201; 233; 304; 8490]) || cjk_unified_ideographs c |}.

Definition sample_en_text : str :=
  of_string "I love this, it is wonderful and great"%string.

Definition sample_zh_text : str := [25105; 29233; 36825; 20010; 20135; 21697].

(** Stand-ins for the models on the sample texts: every call returns. *)
Definition sample_models : Models :=
  {| jieba_cut := fun text => Return (map (fun c => [c]) text);
     snownlp_sentiments := fun _ => Return 0.9%float;
     snownlp_tags := fun _ =>
       Return [([25105], of_string "r"%string); ([22909], of_string "a"%string)];
     vader_polarity_scores := fun _ =>
       Return {| neg := 0%float; neu := 0.4%float; pos := 0.6%float;
                 compound := 0.9%float |};
     textblob_polarity := fun _ => Return 0.8%float;
     textblob_tags := fun _ =>
       Return [(of_string "love"%string, of_string "VBP"%string);
               (of_string "wonderful"%string, of_string "JJ"%string);
               (of_string "great"%string, of_string "JJ"%string)] |}.

(** Models that behave like [sample_models] on the English sample and
    differently on every other text. *)
Definition sample_models_elsewhere : Models :=
  {| jieba_cut := fun text =>
       if bool_decide (text = sample_en_text) then jieba_cut sample_models text
       else Return [text];
     snownlp_sentiments := fun text =>
       if bool_decide (text = sample_en_text) then Return 0.9%float
       else Return 0.1%float;
     snownlp_tags := fun text =>
       if bool_decide (text = sample_en_text) then snownlp_tags sample_models text
       else Return [];
     vader_polarity_scores := fun text =>
       if bool_decide (text = sample_en_text)
       then vader_polarity_scores sample_models text
       else Raise (of_string "lexicon unavailable"%string);
     textblob_polarity := fun text =>
       if bool_decide (text = sample_en_text) then Return 0.8%float
       else Return (-1)%float;
     textblob_tags := fun text =>
       if bool_decide (text = sample_en_text) then textblob_tags sample_models text
       else Return [] |}.

(** The same models on a machine where the part-of-speech taggers cannot
    load their data: the two [tags] calls raise, the scorers still return. *)
Definition models_without_tagger : Models :=
  {| jieba_cut := jieba_cut sample_models;
     snownlp_sentiments := snownlp_sentiments sample_models;
     snownlp_tags := fun _ => Raise (of_string "tagger unavailable"%string);
     vader_polarity_scores := vader_polarity_scores sample_models;
     textblob_polarity := textblob_polarity sample_models;
     textblob_tags := fun _ => Raise (of_string "MissingCorpusError"%string) |}.

(** The same models on a machine where VADER cannot load its lexicon. *)
Definition models_without_lexicon : Models :=
  {| jieba_cut := jieba_cut sample_models;
     snownlp_sentiments := snownlp_sentiments sample_models;
     snownlp_tags := snownlp_tags sample_models;
     vader_polarity_scores := fun _ => Raise (of_string "LookupError"%string);
     textblob_polarity := textblob_polarity sample_models;
     textblob_tags := textblob_tags sample_models |}.

(** Scorers that find nothing favourable or unfavourable in a text. *)
Definition models_indifferent : Models :=
  {| jieba_cut := jieba_cut sample_models;
     snownlp_sentiments := fun _ => Return 0.5%float;
     snownlp_tags := fun _ => Return [];
     vader_polarity_scores := fun _ =>
       Return {| neg := 0%float; neu := 1%float; pos := 0%float;
                 compound := 0%float |};
     textblob_polarity := fun _ => Return 0%float;
     textblob_tags := fun _ => Return [] |}.

(** Scorers that find a text unfavourable. *)
Definition models_unfavourable : Models :=
  {| jieba_cut := jieba_cut sample_models;
     snownlp_sentiments := fun _ => Return 0.1%float;
     snownlp_tags := snownlp_tags sample_models;
     vader_polarity_scores := fun _ =>
       Return {| neg := 0.5%float; neu := 0.5%float; pos := 0%float;
                 compound := (-0.5)%float |};
     textblob_polarity := fun _ => Return (-0.6)%float;
     textblob_tags := textblob_tags sample_models |}.

(** A file system with one file. *)
Definition sample_path : str := of_string "notes/a.txt"%string.

Definition sample_env (content : str) (size : Z) : Env :=
  {| read_text := fun path =>
       if bool_decide (path = sample_path) then Return content
       else Raise (of_string "No such file or directory"%string);
     basename := fun path =>
       if bool_decide (path = sample_path) then of_string "a.txt"%string else path;
     getsize := fun path =>
       if bool_decide (path = sample_path) then Return size
       else Raise (of_string "No such file or directory"%string) |}.

(** The same file in a file system that holds a second one. *)
Definition sample_env_two_files (content : str) (size : Z) : Env :=
  {| read_text := fun path =>
       if bool_decide (path = of_string "b.txt"%string) then Return []
       else read_text (sample_env content size) path;
     basename := basename (sample_env content size);
     getsize := fun path =>
       if bool_decide (path = of_string "b.txt"%string) then Return 0
       else getsize (sample_env content size) path |}.

(** A machine without [analysis_result.png], whose plotting library refuses
    a pie that has no positive wedge and whose PDF library needs the image to
    be there. *)
Definition sample_world : World :=
  {| figure_on_disk := false;
     plot := fun f =>
       if existsb (fun x => (0 <? x)%float) (pie_values f) then Return tt
       else Raise (of_string "ValueError"%string);
     write_csv := fun _ => Return tt;
     write_pdf := fun png _ =>
       if png then Return tt else Raise (of_string "OSError"%string) |}.

(** The distinct elements of a list in order of first occurrence. *)
Fixpoint first_occurrences (l : list str) : list str :=
  match l with
  | [] => []
  | x :: l' => x :: List.filter (fun y => negb (bool_decide (y = x))) (first_occurrences l')
  end.

(** The number of occurrences of [w] in [l]. *)
Definition occurrences (w : list Z) (l : list str) : nat :=
  count_occ (List.list_eq_dec Z.eq_dec) l w.

(** [s.lower()] on ASCII: only the capitals A to Z change. *)
Definition ascii_lower (c : char) : char :=
  if is_ascii_upper c then c + 32 else c.

Definition is_ascii (c : char) : bool := c <? 128.

(** * Properties *)

(** ** Language detection *)

Section DetectorFacts.
Context (U : Unicode).

Lemma search_from_In (set : char -> bool) (prev : option char) (s : str) :
  Regex.search_from U [Regex.In set] prev s = existsb set s.
Proof.
  revert prev. induction s as [|c s IH]; intros prev; [reflexivity|].
  cbn. destruct (set c); [reflexivity|]. cbn. apply IH.
Qed.

Lemma detect_language_existsb (text : str) :
  detect_language U text = if existsb cjk_set text then zh else en.
Proof. unfold detect_language, Regex.search, cjk_pattern. now rewrite search_from_In. Qed.

Lemma cjk_set_range (c : char) : cjk_set c = true <-> 19968 <= c <= 40869.
Proof. unfold cjk_set, between. rewrite andb_true_iff, !Z.leb_le. tauto. Qed.

End DetectorFacts.

(** C5 (as amended).  [detect_language] is a total function; it answers [zh]
    exactly when some character of the text lies in U+4E00..U+9FA5 (the range
    written in the pattern, 19968..40869), and [en] otherwise; the empty text
    is [en]. *)
Theorem detect_language_spec (U : Unicode) (text : str) :
  (detect_language U text = zh <-> exists c, In c text /\ 19968 <= c <= 40869)
  /\ (detect_language U text = en <-> ~ exists c, In c text /\ 19968 <= c <= 40869)
  /\ detect_language U [] = en.
Proof.
  rewrite detect_language_existsb.
  assert (H : existsb cjk_set text = true <-> exists c, In c text /\ 19968 <= c <= 40869).
  { rewrite existsb_exists. split; intros (c & Hin & Hc); exists c; split; auto;
      now apply cjk_set_range. }
  split; [|split; [|reflexivity]].
  - rewrite <- H. destruct (existsb cjk_set text); split; congruence.
  - rewrite <- H. destruct (existsb cjk_set text); split; congruence.
Qed.

(** C5 (counterexample).  U+9FA6 belongs to the CJK Unified Ideographs block,
    yet a text made of it is classified [en]: the pattern stops at U+9FA5. *)
Lemma detect_language_block_counterexample :
  cjk_unified_ideographs 40870 = true
  /\ In 40870 [40870]
  /\ detect_language sample_unicode [40870] = en.
Proof. split; [reflexivity | split; [now left | reflexivity]]. Qed.

(** ** Tokenization *)

Section SpanFacts.
Context {A : Type} (f : A -> bool).

Lemma take_drop_while (l : list A) : take_while f l ++ drop_while f l = l.
Proof.
  induction l as [|x l IH]; [reflexivity|].
  cbn. destruct (f x); [cbn; now rewrite IH | reflexivity].
Qed.

Lemma take_while_forallb (l : list A) : forallb f (take_while f l) = true.
Proof.
  induction l as [|x l IH]; [reflexivity|].
  cbn. destruct (f x) eqn:E; [cbn; now rewrite E | reflexivity].
Qed.

Lemma drop_while_length (l : list A) : (length (drop_while f l) <= length l)%nat.
Proof.
  induction l as [|x l IH]; [reflexivity|].
  cbn. destruct (f x); cbn; lia.
Qed.

Lemma drop_while_idem (l : list A) : drop_while f (drop_while f l) = drop_while f l.
Proof.
  induction l as [|x l IH]; [reflexivity|].
  cbn. destruct (f x) eqn:E; [exact IH | cbn; now rewrite E].
Qed.

Lemma take_while_drop_while (l : list A) : take_while f (drop_while f l) = [].
Proof.
  induction l as [|x l IH]; [reflexivity|].
  cbn. destruct (f x) eqn:E; [exact IH | cbn; now rewrite E].
Qed.

End SpanFacts.

Section TokenizerFacts.
Context (U : Unicode).

Lemma letter_set_ascii (c : char) : letter_set c = true -> 65 <= c <= 122.
Proof.
  unfold letter_set, is_ascii_lower, is_ascii_upper, between.
  rewrite orb_true_iff, !andb_true_iff, !Z.leb_le. lia.
Qed.

Lemma letter_is_word (c : char) : letter_set c = true -> is_word U c = true.
Proof.
  intros H. pose proof (letter_set_ascii c H) as Hc.
  unfold is_word. destruct (Z.ltb_spec c 128); [|lia].
  unfold letter_set in H. apply orb_true_iff in H as [-> | ->];
    rewrite ?orb_true_r; reflexivity.
Qed.

(** *** The reference side: runs of word characters *)

Lemma fields_take_drop (s : str) :
  fields U s = take_while (is_word U) s :: tl (fields U (drop_while (is_word U) s)).
Proof.
  induction s as [|c s IH]; [reflexivity|].
  cbn. destruct (is_word U c) eqn:E.
  - rewrite IH. reflexivity.
  - cbn. rewrite E. reflexivity.
Qed.

Lemma word_runs_take_drop (s : str) :
  word_runs U s =
  (if nonempty (take_while (is_word U) s) then [take_while (is_word U) s] else [])
  ++ word_runs U (drop_while (is_word U) s).
Proof.
  unfold word_runs.
  rewrite (fields_take_drop s) at 1.
  rewrite (fields_take_drop (drop_while (is_word U) s)).
  rewrite take_while_drop_while, drop_while_idem. cbn.
  destruct (nonempty (take_while (is_word U) s)); reflexivity.
Qed.

Lemma letter_words_nonword (c : char) (s : str) :
  is_word U c = false -> letter_words U (c :: s) = letter_words U s.
Proof. intros E. unfold letter_words, word_runs. cbn. now rewrite E. Qed.

Lemma letter_words_word (c : char) (s : str) :
  is_word U c = true ->
  letter_words U (c :: s) =
  (if forallb letter_set (take_while (is_word U) (c :: s))
   then [take_while (is_word U) (c :: s)] else [])
  ++ letter_words U (drop_while (is_word U) s).
Proof.
  intros E. unfold letter_words. rewrite word_runs_take_drop.
  cbn [take_while drop_while]. rewrite E. cbn [nonempty].
  rewrite List.filter_app. cbn [List.filter].
  destruct (forallb letter_set (c :: take_while (is_word U) s)); reflexivity.
Qed.

Lemma letters_only_run (s : str) :
  forallb letter_set (take_while (is_word U) s)
  = negb (Regex.word_at U (drop_while letter_set s)).
Proof.
  induction s as [|c s IH]; [reflexivity|].
  cbn [take_while drop_while]. destruct (letter_set c) eqn:L.
  - rewrite (letter_is_word c L). cbn. now rewrite L.
  - cbn [Regex.word_at]. destruct (is_word U c); cbn; [now rewrite L | reflexivity].
Qed.

Lemma letter_run_is_word_run (s : str) :
  Regex.word_at U (drop_while letter_set s) = false ->
  take_while (is_word U) s = take_while letter_set s
  /\ drop_while (is_word U) s = drop_while letter_set s.
Proof.
  induction s as [|c s IH]; [now split|].
  cbn [take_while drop_while]. destruct (letter_set c) eqn:L.
  - intros H. rewrite (letter_is_word c L). destruct (IH H) as [-> ->]. now split.
  - cbn [Regex.word_at]. intros ->. now split.
Qed.

Lemma drop_while_nonword (s : str) :
  Regex.word_at U s = false -> drop_while (is_word U) s = s.
Proof. destruct s as [|c s]; [reflexivity|]. cbn. now intros ->. Qed.

(** *** The engine side: one attempt of the pattern *)

Lemma max_repeat1_letters (s : str) :
  Regex.max_repeat1 letter_set (Regex.exec U [Regex.AtBoundary]) s =
  if nonempty (take_while letter_set s)
     && negb (Regex.word_at U (drop_while letter_set s))
  then Some (take_while letter_set s, drop_while letter_set s)
  else None.
Proof.
  induction s as [|c s IH]; [reflexivity|].
  cbn [Regex.max_repeat1 take_while drop_while].
  destruct (letter_set c) eqn:L; [|reflexivity].
  rewrite IH. cbn [nonempty andb].
  destruct (take_while letter_set s) as [|d l] eqn:T.
  - cbn [nonempty andb].
    assert (D : drop_while letter_set s = s).
    { rewrite <- (take_drop_while letter_set s) at 2. now rewrite T. }
    rewrite D. cbn. unfold Regex.at_boundary. cbn [Regex.word_before].
    rewrite (letter_is_word c L). cbn.
    destruct (Regex.word_at U s); reflexivity.
  - cbn [nonempty andb].
    destruct (Regex.word_at U (drop_while letter_set s)) eqn:W; [|reflexivity].
    cbn. unfold Regex.at_boundary. cbn [Regex.word_before].
    rewrite (letter_is_word c L).
    assert (Ws : Regex.word_at U s = true).
    { destruct s as [|e s']; [discriminate|]. cbn in T |- *.
      destruct (letter_set e) eqn:Le; [now apply letter_is_word | discriminate]. }
    rewrite Ws. reflexivity.
Qed.

Lemma exec_word_pattern (prev : option char) (s : str) :
  Regex.exec U word_pattern prev s =
  if Regex.at_boundary U prev s
     && nonempty (take_while letter_set s)
     && negb (Regex.word_at U (drop_while letter_set s))
  then Some (take_while letter_set s, drop_while letter_set s)
  else None.
Proof.
  unfold word_pattern. cbn [Regex.exec].
  destruct (Regex.at_boundary U prev s); [|reflexivity].
  rewrite max_repeat1_letters. reflexivity.
Qed.

End TokenizerFacts.

Section FindallFacts.
Context (U : Unicode).

Lemma findall_skip (p : list Regex.node) (l r : str) (prev : option char) :
  Regex.word_before U prev = true ->
  forallb (is_word U) l = true ->
  exists prev', Regex.word_before U prev' = true
    /\ Regex.findall_from U p prev (length l) (l ++ r)
       = Regex.findall_from U p prev' O r.
Proof.
  revert prev. induction l as [|d l IH]; intros prev Hp Hl.
  - exists prev. now split.
  - cbn in Hl. apply andb_true_iff in Hl as [Hd Hl].
    cbn. apply IH; assumption.
Qed.

Lemma forallb_letter_word (l : str) :
  forallb letter_set l = true -> forallb (is_word U) l = true.
Proof.
  induction l as [|d l IH]; [reflexivity|]. cbn.
  rewrite !andb_true_iff. intros [Hd Hl]. split; [now apply letter_is_word | auto].
Qed.

Lemma findall_word_pattern_nil (prev : option char) :
  Regex.findall_from U word_pattern prev O [] = [].
Proof.
  cbn [Regex.findall_from]. rewrite exec_word_pattern. cbn.
  now rewrite andb_false_r.
Qed.

Lemma findall_word_pattern_from (n : nat) :
  forall (s : str) (prev : option char),
    (length s <= n)%nat ->
    Regex.findall_from U word_pattern prev O s =
    letter_words U (if Regex.word_before U prev then drop_while (is_word U) s else s).
Proof.
  induction n as [|n IH]; intros s prev Hlen.
  - destruct s; [|cbn in Hlen; lia].
    rewrite findall_word_pattern_nil.
    destruct (Regex.word_before U prev); reflexivity.
  - destruct s as [|c s].
    { rewrite findall_word_pattern_nil.
      destruct (Regex.word_before U prev); reflexivity. }
    cbn in Hlen. cbn [Regex.findall_from]. rewrite exec_word_pattern.
    unfold Regex.at_boundary. cbn [Regex.word_at].
    destruct (Regex.word_before U prev) eqn:B; destruct (is_word U c) eqn:W;
      cbn [xorb andb drop_while]; rewrite ?W.
    + (* inside a run of word characters *)
      rewrite IH by lia. cbn [Regex.word_before]. now rewrite W.
    + (* a non-word character after a word character *)
      assert (L : letter_set c = false).
      { destruct (letter_set c) eqn:L; [|reflexivity].
        rewrite (letter_is_word U c L) in W. discriminate. }
      cbn [take_while]. rewrite L. cbn [nonempty andb].
      rewrite IH by lia. cbn [Regex.word_before]. rewrite W.
      now rewrite letter_words_nonword.
    + (* the start of a run of word characters *)
      rewrite (letter_words_word U c s W), letters_only_run.
      destruct (letter_set c) eqn:L.
      * cbn [take_while drop_while]. rewrite L. cbn [nonempty andb].
        destruct (Regex.word_at U (drop_while letter_set s)) eqn:R; cbn [negb].
        -- rewrite IH by lia. cbn [Regex.word_before]. now rewrite W.
        -- destruct (letter_run_is_word_run U s R) as [Ht Hd].
           rewrite W, Ht, Hd. cbn [app]. f_equal.
           destruct (findall_skip word_pattern (take_while letter_set s)
                       (drop_while letter_set s) (Some c)) as (prev' & Hp & Hs).
           { exact W. }
           { apply forallb_letter_word, take_while_forallb. }
           cbn [length Nat.pred].
           rewrite (take_drop_while letter_set s) in Hs.
           rewrite Hs, IH.
           ++ rewrite Hp. now rewrite drop_while_nonword.
           ++ pose proof (drop_while_length letter_set s). lia.
      * cbn [take_while drop_while]. rewrite L. cbn [nonempty andb Regex.word_at].
        rewrite W. cbn [negb app].
        rewrite IH by lia. cbn [Regex.word_before]. now rewrite W.
    + (* a non-word character after a non-word character *)
      rewrite IH by lia. cbn [Regex.word_before]. rewrite W.
      now rewrite letter_words_nonword.
Qed.

End FindallFacts.

Section LowerFacts.
Context (U : Unicode).
Hypothesis to_lower_full_no_upper :
  forall c d, 128 <= c -> In d (to_lower_full U c) -> is_ascii_upper d = false.

Lemma lower_char_no_upper (before : str) (c : char) (after : str) (d : char) :
  In d (lower_char U before c after) -> is_ascii_upper d = false.
Proof.
  unfold lower_char.
  destruct (Z.eqb_spec c 931) as [->|_].
  { destruct (final_sigma U before after); intros [<-|[]]; reflexivity. }
  destruct (is_ascii_upper c) eqn:Up.
  { intros [<-|[]]. unfold is_ascii_upper, between in *.
    apply andb_true_iff in Up as [H1 H2]. apply Z.leb_le in H1, H2.
    apply andb_false_iff. right. apply Z.leb_gt. lia. }
  destruct (Z.ltb_spec c 128).
  { now intros [<-|[]]. }
  now apply to_lower_full_no_upper.
Qed.

Lemma lower_from_no_upper (before s : str) (d : char) :
  In d (lower_from U before s) -> is_ascii_upper d = false.
Proof.
  revert before. induction s as [|c s IH]; intros before; [intros []|].
  cbn. rewrite in_app_iff. intros [H|H].
  - eapply lower_char_no_upper, H.
  - eapply IH, H.
Qed.

End LowerFacts.

Section RunFacts.
Context (U : Unicode).

Lemma fields_chars (s : str) (r : str) (c : char) :
  In r (fields U s) -> In c r -> In c s.
Proof.
  revert r. induction s as [|d s IH]; intros r.
  - cbn. intros [<-|[]] [].
  - cbn [fields]. destruct (is_word U d).
    + destruct (fields U s) as [|r0 rs] eqn:F.
      * intros [<-|[]] Hc. destruct Hc as [<-|[]]. now left.
      * intros [<-|Hr] Hc.
        -- destruct Hc as [<-|Hc]; [now left|]. right. apply (IH r0); [now left|exact Hc].
        -- right. apply (IH r); [now right|exact Hc].
    + intros [<-|Hr] Hc; [destruct Hc|]. right. now apply (IH r).
Qed.

Lemma letter_words_elements (s t : str) :
  In t (letter_words U s) ->
  In t (word_runs U s) /\ t <> [] /\ forallb letter_set t = true
  /\ forall c, In c t -> In c s.
Proof.
  unfold letter_words, word_runs. rewrite !filter_In.
  intros [[Hf Hn] Hl]. repeat split; auto.
  - destruct t; [discriminate|congruence].
  - intros c. now apply fields_chars.
Qed.

End RunFacts.

Section OccurrenceFacts.
Context (U : Unicode).







End OccurrenceFacts.

Lemma lower_from_ascii (U : Unicode) (before s : str) :
  Forall (fun c => is_ascii c = true) s ->
  lower_from U before s = map ascii_lower s.
Proof.
  intros H. revert before. induction H as [|c s Hc _ IH]; intros before;
    [reflexivity|].
  cbn [lower_from map]. rewrite IH. unfold lower_char, ascii_lower.
  unfold is_ascii in Hc. apply Z.ltb_lt in Hc.
  destruct (Z.eqb_spec c 931); [lia|].
  destruct (is_ascii_upper c); [reflexivity|].
  destruct (Z.ltb_spec c 128); [reflexivity|lia].
Qed.


Lemma findall_word_pattern (U : Unicode) (s : str) :
  Regex.findall U word_pattern s = letter_words U s.
Proof.
  unfold Regex.findall.
  rewrite (findall_word_pattern_from U (length s)) by lia.
  reflexivity.
Qed.


(** C10.  Provided the lower-case table never yields an ASCII capital (true
    of the Unicode database), every token of the English path is a non-empty
    string of the letters a to z. *)
Theorem tokenize_text_en_lowercase (U : Unicode) (M : Models)
    (Htable : forall c d, 128 <= c -> In d (to_lower_full U c) ->
                is_ascii_upper d = false)
    (text : str) (tokens : list str) :
  tokenize_text U M text en = Return tokens ->
  forall t, In t tokens -> t <> [] /\ Forall (fun c => 97 <= c <= 122) t.
Proof.
  cbn. rewrite findall_word_pattern. intros [= <-] t Ht.
  apply letter_words_elements in Ht as (_ & Hne & Hl & Hin).
  split; [exact Hne|].
  apply List.Forall_forall. intros c Hc.
  assert (Hup : is_ascii_upper c = false).
  { apply (lower_from_no_upper U Htable [] text), Hin, Hc. }
  rewrite forallb_forall in Hl. specialize (Hl c Hc).
  unfold letter_set in Hl. rewrite Hup, orb_false_r in Hl.
  unfold is_ascii_lower, between in Hl.
  apply andb_true_iff in Hl as [H1 H2].
  apply Z.leb_le in H1, H2. lia.
Qed.

(** ** Sentiment analysis *)

(** *** The order of binary64 numbers around the two thresholds *)

Section FloatOrder.

Lemma SF_06 : Prim2SF 0.6 = S754_finite false 5404319552844595 (-53).
Proof. reflexivity. Qed.

Lemma SF_04 : Prim2SF 0.4 = S754_finite false 7205759403792794 (-54).
Proof. reflexivity. Qed.

Lemma compare_cont_antisym (a b : positive) :
  PosDef.Pos.compare_cont Eq a b = CompOpp (PosDef.Pos.compare_cont Eq b a).
Proof. exact (Pos.compare_antisym b a). Qed.

Ltac exponents :=
  repeat match goal with
  | H : (_ ?= _)%Z = Eq |- _ => rewrite Z.compare_eq_iff in H
  | H : (_ ?= _)%Z = Lt |- _ => rewrite Z.compare_lt_iff in H
  | H : (_ ?= _)%Z = Gt |- _ => rewrite Z.compare_gt_iff in H
  end.

Lemma below_04_not_above_06 (s : float) :
  (s <? 0.4)%float = true -> (0.6 <? s)%float = false.
Proof.
  rewrite !ltb_spec, SF_04, SF_06.
  generalize (Prim2SF s). intros x H.
  destruct x as [sg|sg| |sg m e]; unfold SFltb, SFcompare in *.
  - reflexivity.
  - destruct sg; [reflexivity|discriminate H].
  - reflexivity.
  - destruct sg; [reflexivity|].
    destruct (e ?= -54)%Z eqn:E1; destruct (-53 ?= e)%Z eqn:E2;
      try reflexivity; try discriminate H; exponents; lia.
Qed.

Lemma between_04_06 (s : float) :
  (0.4 <=? s)%float = true -> (s <=? 0.6)%float = true ->
  (0.6 <? s)%float = false /\ (s <? 0.4)%float = false.
Proof.
  rewrite !ltb_spec, !leb_spec, SF_04, SF_06.
  generalize (Prim2SF s). intros x H1 H2.
  destruct x as [sg|sg| |sg m e]; unfold SFltb, SFleb, SFcompare in *.
  - discriminate H1.
  - destruct sg; [discriminate H1|discriminate H2].
  - discriminate H1.
  - destruct sg; [discriminate H1|].
    destruct (e ?= -54)%Z eqn:E1; destruct (-53 ?= e)%Z eqn:E2;
      destruct (-54 ?= e)%Z eqn:E3; destruct (e ?= -53)%Z eqn:E4;
      try (split; reflexivity); try discriminate H1; try discriminate H2;
      exponents; try lia.
    + split; [reflexivity|].
      rewrite (compare_cont_antisym m).
      destruct (PosDef.Pos.compare_cont Eq 7205759403792794 m);
        [reflexivity|reflexivity|discriminate H1].
    + split; [|reflexivity].
      rewrite (compare_cont_antisym _ m).
      destruct (PosDef.Pos.compare_cont Eq m 5404319552844595);
        [reflexivity|reflexivity|discriminate H2].
Qed.
End FloatOrder.

Section SentimentFacts.
Context (M : Models).

(** Unfolds the statements of the [try] block. *)
Ltac unfold_try :=
  unfold analyze_sentiment, try_block, score_zh, score_en, classify,
    mbind, mret, Try_bind, Try_ret, call, get_score, set_score,
    set_intensity, set_keywords, set_polarity.

Lemma classify_run (a : Sentiment) :
  polarity a = Neutral ->
  classify a = (Return tt, {| score := score a;
                              polarity := polarity_of_score (score a);
                              intensity := intensity a;
                              keywords := keywords a |}).
Proof.
  destruct a as [s p i k]. cbn. intros ->.
  unfold polarity_of_score. unfold_try. cbn.
  destruct (0.6 <? s)%float; [reflexivity|].
  destruct (s <? 0.4)%float; reflexivity.
Qed.

(** The outcome of the Chinese branch, statement by statement. *)
Lemma score_zh_run (text : str) :
  score_zh M text default_sentiment =
  match snownlp_sentiments M text with
  | Raise e => (Raise e, default_sentiment)
  | Return s =>
      match snownlp_tags M text with
      | Raise e =>
          (Raise e, {| score := s; polarity := Neutral;
                       intensity := intensity default_sentiment;
                       keywords := [] |})
      | Return tags =>
          (Return tt,
           {| score := s; polarity := Neutral;
              intensity := intensity default_sentiment;
              keywords := List.filter (fun wt => zh_adjective_tag (snd wt)) tags |})
      end
  end.
Proof.
  unfold_try.
  destruct (snownlp_sentiments M text); [|reflexivity].
  destruct (snownlp_tags M text); reflexivity.
Qed.

(** The outcome of the English branch, statement by statement. *)
Lemma score_en_run (text : str) :
  score_en M text default_sentiment =
  match vader_polarity_scores M text with
  | Raise e => (Raise e, default_sentiment)
  | Return v =>
      match textblob_polarity M text with
      | Raise e => (Raise e, default_sentiment)
      | Return p =>
          let blended :=
            {| score := ((p + compound v) / 2)%float; polarity := Neutral;
               intensity := {| i_positive := pos v; i_negative := neg v;
                               i_neutral := neu v |};
               keywords := [] |} in
          match textblob_tags M text with
          | Raise e => (Raise e, blended)
          | Return tags =>
              (Return tt,
               {| score := score blended; polarity := Neutral;
                  intensity := intensity blended;
                  keywords := List.filter (fun wt => en_adjective_tag (snd wt)) tags |})
          end
      end
  end.
Proof.
  unfold_try.
  destruct (vader_polarity_scores M text); [|reflexivity].
  destruct (textblob_polarity M text); [|reflexivity].
  destruct (textblob_tags M text); reflexivity.
Qed.

Lemma try_block_run (text : str) (lang : Language) :
  try_block M text lang default_sentiment =
  match (match lang with zh => score_zh M text | en => score_en M text end)
          default_sentiment with
  | (Return _, a) => classify a
  | (Raise e, a) => (Raise e, a)
  end.
Proof.
  unfold try_block, mbind, Try_bind.
  destruct (_ default_sentiment) as [[[]|e] a]; reflexivity.
Qed.

Lemma completed_polarity (text : str) (lang : Language) :
  completed M text lang ->
  polarity (fst (analyze_sentiment M text lang))
  = polarity_of_score (score (fst (analyze_sentiment M text lang))).
Proof.
  unfold completed, analyze_sentiment. rewrite try_block_run.
  destruct lang; [rewrite score_zh_run | rewrite score_en_run].
  - destruct (snownlp_sentiments M text) as [s|e]; [|discriminate].
    destruct (snownlp_tags M text) as [tags|e]; [|discriminate].
    rewrite classify_run by reflexivity. reflexivity.
  - destruct (vader_polarity_scores M text) as [v|e]; [|discriminate].
    destruct (textblob_polarity M text) as [p|e]; [|discriminate].
    cbv zeta.
    destruct (textblob_tags M text) as [tags|e]; [|discriminate].
    rewrite classify_run by reflexivity. reflexivity.
Qed.

End SentimentFacts.

Section SentimentResults.
Context (M : Models).

(** When no statement raised, the three cases of the classification read
    off the score. *)
Lemma completed_thresholds (text : str) (lang : Language) :
  completed M text lang ->
  let r := fst (analyze_sentiment M text lang) in
  ((0.6 <? score r)%float = true -> polarity r = Positive)
  /\ ((score r <? 0.4)%float = true -> polarity r = Negative)
  /\ ((0.4 <=? score r)%float = true -> (score r <=? 0.6)%float = true ->
      polarity r = Neutral).
Proof.
  intros Hc r. subst r. rewrite (completed_polarity M text lang Hc).
  unfold polarity_of_score. repeat split.
  - now intros ->.
  - intros H. now rewrite (below_04_not_above_06 _ H), H.
  - intros H1 H2. destruct (between_04_06 _ H1 H2) as [-> ->]. reflexivity.
Qed.

(** When the first model call raises, nothing has been assigned yet and the
    initial dictionary comes back. *)
Lemma first_call_raises_default (text : str) (lang : Language) (e : exn) :
  match lang with
  | zh => snownlp_sentiments M text = Raise e
  | en => vader_polarity_scores M text = Raise e
  end ->
  analyze_sentiment M text lang = (default_sentiment, [SentimentError e]).
Proof.
  unfold analyze_sentiment. rewrite try_block_run.
  destruct lang; [rewrite score_zh_run | rewrite score_en_run];
    now intros ->.
Qed.

(** Whatever raised, the label is still the initial one. *)
Lemma raised_polarity_neutral (text : str) (lang : Language) :
  ~ completed M text lang ->
  polarity (fst (analyze_sentiment M text lang)) = Neutral.
Proof.
  unfold completed, analyze_sentiment. rewrite try_block_run.
  destruct lang; [rewrite score_zh_run | rewrite score_en_run].
  - destruct (snownlp_sentiments M text) as [s|e]; [|reflexivity].
    destruct (snownlp_tags M text) as [tags|e]; [|reflexivity].
    rewrite classify_run by reflexivity. now intros [].
  - destruct (vader_polarity_scores M text) as [v|e]; [|reflexivity].
    destruct (textblob_polarity M text) as [p|e]; [|reflexivity].
    cbv zeta.
    destruct (textblob_tags M text) as [tags|e]; [|reflexivity].
    rewrite classify_run by reflexivity. now intros [].
Qed.

(** On the Chinese path the score is the classifier's output or the
    initial 0.5, so it stays in [0, 1] whenever the classifier does. *)
Lemma zh_score_in_unit_interval (text : str) :
  (forall s, snownlp_sentiments M text = Return s -> in_unit_interval s) ->
  in_unit_interval (score (fst (analyze_sentiment M text zh))).
Proof.
  intros H. unfold analyze_sentiment. rewrite try_block_run, score_zh_run.
  destruct (snownlp_sentiments M text) as [s|e]; [|split; reflexivity].
  specialize (H s eq_refl).
  destruct (snownlp_tags M text) as [tags|e]; [|exact H].
  rewrite classify_run by reflexivity. exact H.
Qed.

End SentimentResults.

(** C4.  On the English path, once the two scorers have returned, the score
    is exactly the binary64 value of [(polarity + compound) / 2] and the
    intensity holds VADER's three proportions unchanged. *)
Theorem analyze_sentiment_en_blend (M : Models) (text : str)
    (v : vader_scores) (p : float) :
  vader_polarity_scores M text = Return v ->
  textblob_polarity M text = Return p ->
  score (fst (analyze_sentiment M text en)) = ((p + compound v) / 2)%float
  /\ intensity (fst (analyze_sentiment M text en))
     = {| i_positive := pos v; i_negative := neg v; i_neutral := neu v |}.
Proof.
  intros Hv Hp. unfold analyze_sentiment.
  rewrite try_block_run, score_en_run, Hv, Hp. cbv zeta.
  destruct (textblob_tags M text) as [tags|e].
  - rewrite classify_run by reflexivity. split; reflexivity.
  - split; reflexivity.
Qed.

Lemma analyze_sentiment_en_blend_witness :
  score (fst (analyze_sentiment sample_models sample_en_text en))
  = ((0.8 + 0.9) / 2)%float
  /\ intensity (fst (analyze_sentiment sample_models sample_en_text en))
     = {| i_positive := 0.6%float; i_negative := 0%float; i_neutral := 0.4%float |}.
Proof.
  exact (analyze_sentiment_en_blend sample_models sample_en_text
           {| neg := 0%float; neu := 0.4%float; pos := 0.6%float;
              compound := 0.9%float |} 0.8%float eq_refl eq_refl).
Defined.

(** C1 (the code at the failing input).  The taggers being unavailable, the
    English sample gets a score above 0.6 and keeps the label [Neutral]: the
    [tags] call raises after the score was assigned and before the
    classification runs. *)
Lemma polarity_not_classified_after_raise :
  let r := fst (analyze_sentiment models_without_tagger sample_en_text en) in
  (0.6 <? score r)%float = true
  /\ polarity r = Neutral
  /\ polarity_of_score (score r) = Positive.
Proof. vm_compute. repeat split. Qed.

(** C2 (the code at the failing input).  With the same input the returned
    dictionary is not the initial one: the score and the intensity assigned
    before the exception are kept. *)
Lemma partial_profile_after_raise :
  analyze_sentiment models_without_tagger sample_en_text en
  = ({| score := ((0.8 + 0.9) / 2)%float;
        polarity := Neutral;
        intensity := {| i_positive := 0.6%float; i_negative := 0%float;
                        i_neutral := 0.4%float |};
        keywords := [] |},
     [SentimentError (of_string "MissingCorpusError"%string)])
  /\ (score (fst (analyze_sentiment models_without_tagger sample_en_text en))
        =? score default_sentiment)%float = false.
Proof. split; reflexivity. Qed.

(** The Chinese path keeps the classifier's score in the same way when the
    tagger raises. *)
Lemma zh_partial_profile_after_raise :
  analyze_sentiment models_without_tagger sample_zh_text zh
  = ({| score := 0.9%float;
        polarity := Neutral;
        intensity := intensity default_sentiment;
        keywords := [] |},
     [SentimentError (of_string "tagger unavailable"%string)]).
Proof. reflexivity. Qed.

(** An English text that both scorers find unfavourable is analysed without
    any exception and gets a score below zero. *)
Lemma en_score_below_zero :
  let r := analyze_sentiment models_unfavourable sample_en_text en in
  snd r = []
  /\ score (fst r) = ((-0.6 + -0.5) / 2)%float
  /\ (score (fst r) <? 0)%float = true
  /\ (0 <=? score (fst r))%float = false.
Proof. vm_compute. repeat split. Qed.

(** An English text in which the scorers find nothing (both return 0) is
    labelled [Negative]: the blend is centred on 0, the thresholds on 0.5. *)
Lemma indifferent_en_text_labelled_negative :
  let r := analyze_sentiment models_indifferent sample_en_text en in
  snd r = [] /\ score (fst r) = 0%float /\ polarity (fst r) = Negative.
Proof. vm_compute. repeat split. Qed.

(** ** Word frequencies *)

Section CounterFacts.

Lemma sum_values_commute (j1 j2 : list Z) (z1 z2 y : nat) :
  (z1 + (z2 + y) = z2 + (z1 + y))%nat.
Proof. lia. Qed.

Lemma sum_values_insert_fresh (m : gmap (list Z) nat) (w : list Z) (n : nat) :
  m !! w = None -> sum_values (<[w := n]> m) = (n + sum_values m)%nat.
Proof.
  intros H. unfold sum_values.
  apply (map_fold_insert_L (fun _ v acc => (v + acc)%nat)); [|exact H].
  intros. apply sum_values_commute; assumption.
Qed.

Lemma sum_values_count_element (m : gmap (list Z) nat) (w : list Z) :
  sum_values (count_element m w) = S (sum_values m).
Proof.
  unfold count_element. destruct (m !! w) as [n|] eqn:H; cbn.
  - rewrite <- (insert_delete_eq m w (S n)).
    rewrite sum_values_insert_fresh by apply lookup_delete_eq.
    rewrite <- (insert_delete_id m w n H) at 2.
    rewrite sum_values_insert_fresh by apply lookup_delete_eq.
    reflexivity.
  - now rewrite sum_values_insert_fresh.
Qed.

Lemma sum_values_foldl (l : list (list Z)) (m : gmap (list Z) nat) :
  sum_values (foldl count_element m l) = (sum_values m + length l)%nat.
Proof.
  revert m. induction l as [|w l IH]; intros m; cbn; [lia|].
  rewrite IH, sum_values_count_element. lia.
Qed.

Lemma dom_foldl (l : list (list Z)) (m : gmap (list Z) nat) :
  dom (foldl count_element m l) = dom m ∪ list_to_set l.
Proof.
  revert m. induction l as [|w l IH]; intros m; cbn.
  - now rewrite union_empty_r_L.
  - rewrite IH. unfold count_element. rewrite dom_insert_L.
    rewrite (comm_L (∪) {[w]} (dom m)). now rewrite <- (assoc_L (∪)).
Qed.

Lemma Counter_sum (l : list (list Z)) : sum_values (Counter l) = length l.
Proof.
  unfold Counter. rewrite sum_values_foldl.
  unfold sum_values. now rewrite map_fold_empty.
Qed.

Lemma Counter_dom (l : list (list Z)) : dom (Counter l) = list_to_set l.
Proof. unfold Counter. now rewrite dom_foldl, dom_empty_L, union_empty_l_L. Qed.

(** Each count is the number of occurrences of its key. *)
Lemma count_foldl (l : list (list Z)) (m : gmap (list Z) nat) (w : list Z) :
  default 0%nat (foldl count_element m l !! w)
  = (default 0%nat (m !! w) + count_occ (List.list_eq_dec Z.eq_dec) l w)%nat.
Proof.
  revert m. induction l as [|x l IH]; intros m; cbn [foldl count_occ]; [lia|].
  rewrite IH. unfold count_element. rewrite lookup_insert.
  destruct (List.list_eq_dec Z.eq_dec x w) as [->|Hne].
  - rewrite decide_True by reflexivity. cbn. lia.
  - rewrite decide_False by exact Hne. lia.
Qed.

Lemma Counter_count (l : list (list Z)) (w : list Z) :
  default 0%nat (Counter l !! w) = count_occ (List.list_eq_dec Z.eq_dec) l w.
Proof. unfold Counter. now rewrite count_foldl, lookup_empty. Qed.

End CounterFacts.

(** ** The main analysis function and the driver *)

Section OrchestratorFacts.
Context (U : Unicode) (M : Models).

(** What a returned dictionary was built from. *)
Lemma analyze_file_Some (E : Env) (file_path : str) (stats : Stats)
    (printed : list message) :
  analyze_file U M E file_path = (Some stats, printed) ->
  exists content size tokens,
    read_text E file_path = Return content
    /\ getsize E file_path = Return size
    /\ tokenize_text U M content (detect_language U content) = Return tokens
    /\ printed = snd (analyze_sentiment M content (detect_language U content))
    /\ stats =
       {| file_name := basename E file_path;
          file_size := size;
          char_count := length content;
          line_count := count_lines false content;
          language := detect_language U content;
          words := tokens;
          word_count := length tokens;
          word_freq := Counter tokens;
          sentiment := fst (analyze_sentiment M content (detect_language U content)) |}.
Proof.
  unfold analyze_file, analyze_file_body, mbind, result_bind, mret, result_ret.
  destruct (read_text E file_path) as [content|e]; [|discriminate].
  destruct (getsize E file_path) as [size|e]; [|discriminate].
  destruct (tokenize_text U M content (detect_language U content))
    as [tokens|e] eqn:Ht; [|discriminate].
  destruct (analyze_sentiment M content (detect_language U content))
    as [analysis out] eqn:Ha.
  intros [= <- <-]. exists content, size, tokens.
  rewrite Ht, Ha. repeat split; reflexivity.
Qed.

(** The sentiment stage never ends the analysis: once the file is read and
    tokenized, a dictionary is returned whatever the sentiment models do. *)
Lemma analyze_file_returns (E : Env) (file_path content : str) (size : Z)
    (tokens : list str) :
  read_text E file_path = Return content ->
  getsize E file_path = Return size ->
  tokenize_text U M content (detect_language U content) = Return tokens ->
  exists stats, fst (analyze_file U M E file_path) = Some stats
    /\ words stats = tokens
    /\ sentiment stats
       = fst (analyze_sentiment M content (detect_language U content)).
Proof.
  intros Hr Hs Ht.
  unfold analyze_file, analyze_file_body, mbind, result_bind, mret, result_ret.
  rewrite Hr, Hs, Ht.
  destruct (analyze_sentiment M content (detect_language U content))
    as [analysis out].
  eexists. repeat split; reflexivity.
Qed.

End OrchestratorFacts.

(** C7.  In every dictionary that [analyze_file] returns, [word_count] is the
    length of [words], the counts of [word_freq] add up to [word_count], and
    the keys of [word_freq] are exactly the values that occur in [words]. *)
Theorem analyze_file_word_statistics (U : Unicode) (M : Models) (E : Env)
    (file_path : str) (stats : Stats) (printed : list message) :
  analyze_file U M E file_path = (Some stats, printed) ->
  word_count stats = length (words stats)
  /\ sum_values (word_freq stats) = word_count stats
  /\ (forall t : list Z, t ∈ dom (word_freq stats) <-> In t (words stats)).
Proof.
  intros H. apply analyze_file_Some in H as (content & size & tokens & _ & _ & _ & _ & ->).
  cbn. split; [reflexivity|]. split; [apply Counter_sum|].
  intros t. rewrite Counter_dom, elem_of_list_to_set. apply list_elem_of_In.
Qed.

(** C3 (as amended).  In every dictionary that [analyze_file] returns for a
    text detected as Chinese, the sentiment score lies in [0, 1], provided
    the classifier's output for that text does: the score is that output, or
    the initial 0.5 when the classifier raised.  (Nothing is said here of the
    range of the score on the English path.) *)
Theorem zh_result_score_in_unit_interval (U : Unicode) (M : Models) (E : Env)
    (file_path : str) (stats : Stats) (printed : list message) :
  analyze_file U M E file_path = (Some stats, printed) ->
  language stats = zh ->
  (forall content s, read_text E file_path = Return content ->
                     snownlp_sentiments M content = Return s ->
                     in_unit_interval s) ->
  in_unit_interval (score (sentiment stats)).
Proof.
  intros H Hzh Hs.
  apply analyze_file_Some in H as (content & size & tokens & Hr & _ & _ & _ & ->).
  cbn in Hzh |- *. rewrite Hzh.
  apply zh_score_in_unit_interval. intros s. now apply Hs.
Qed.

Lemma zh_result_score_in_unit_interval_witness :
  exists stats printed,
    analyze_file sample_unicode sample_models (sample_env sample_zh_text 18)
      sample_path = (Some stats, printed)
    /\ language stats = zh
    /\ in_unit_interval (score (sentiment stats)).
Proof.
  eexists _, _. split; [reflexivity|]. split; [reflexivity|].
  eapply (zh_result_score_in_unit_interval sample_unicode sample_models
            (sample_env sample_zh_text 18) sample_path);
    [reflexivity | reflexivity |].
  intros content s _ [= <-]. split; reflexivity.
Defined.

(** C3 (counterexample).  A successful analysis of an English text that both
    scorers find unfavourable returns a dictionary whose score is below 0. *)
Lemma en_result_score_outside_unit_interval :
  exists stats,
    analyze_file sample_unicode models_unfavourable (sample_env sample_en_text 38)
      sample_path = (Some stats, [])
    /\ language stats = en
    /\ score (sentiment stats) = ((-0.6 + -0.5) / 2)%float
    /\ (0 <=? score (sentiment stats))%float = false.
Proof. eexists. split; [reflexivity|]. repeat split. Qed.

(** C8.  When the file cannot be opened or decoded, [analyze_file] returns
    [None] whatever the models are, and the driver stops after reporting the
    failure: it saves no chart and writes no report. *)
Theorem analyze_file_unreadable (U : Unicode) (M : Models) (E : Env) (W : World)
    (file_path choice : str) (e : exn) :
  read_text E file_path = Raise e ->
  analyze_file U M E file_path = (None, [AnalysisFailed e])
  /\ main U M E W file_path choice = [Print Analyzing; Print (AnalysisFailed e)].
Proof.
  intros H.
  assert (Hf : analyze_file U M E file_path = (None, [AnalysisFailed e])).
  { unfold analyze_file, analyze_file_body, mbind, result_bind. now rewrite H. }
  split; [exact Hf|]. unfold main. now rewrite Hf.
Qed.

Lemma analyze_sentiment_agree (M1 M2 : Models) (text : str) (lang : Language) :
  models_agree_on M1 M2 text ->
  analyze_sentiment M1 text lang = analyze_sentiment M2 text lang.
Proof.
  intros (_ & Hs & Ht & Hv & Hp & Hg). unfold analyze_sentiment.
  rewrite !try_block_run. destruct lang.
  - now rewrite !score_zh_run, Hs, Ht.
  - now rewrite !score_en_run, Hv, Hp, Hg.
Qed.

(** C9.  The result of [analyze_file] is a function of the file at the given
    path and of what the models return on its content: two runs in which the
    file has the same content, name and size, and in which the models return
    the same on that content, give equal results, whatever else differs in
    the file system or in the models. *)
Theorem analyze_file_deterministic (U : Unicode) (M1 M2 : Models) (E1 E2 : Env)
    (file_path : str) :
  read_text E1 file_path = read_text E2 file_path ->
  basename E1 file_path = basename E2 file_path ->
  getsize E1 file_path = getsize E2 file_path ->
  (forall content, read_text E1 file_path = Return content ->
                   models_agree_on M1 M2 content) ->
  analyze_file U M1 E1 file_path = analyze_file U M2 E2 file_path.
Proof.
  intros Hr Hb Hs Hm. unfold analyze_file, analyze_file_body.
  rewrite <- Hr, <- Hb, <- Hs.
  destruct (read_text E1 file_path) as [content|e]; [|reflexivity].
  specialize (Hm content eq_refl).
  unfold mbind, result_bind.
  destruct (getsize E1 file_path) as [size|e]; [|reflexivity].
  rewrite (analyze_sentiment_agree M1 M2 content _ Hm).
  destruct Hm as (Hj & _).
  unfold tokenize_text. destruct (detect_language U content); [now rewrite Hj|].
  reflexivity.
Qed.

Lemma analyze_file_word_statistics_witness :
  exists stats printed,
    analyze_file sample_unicode sample_models (sample_env sample_en_text 38)
      sample_path = (Some stats, printed)
    /\ word_count stats = 8%nat
    /\ (word_count stats = length (words stats)
        /\ sum_values (word_freq stats) = word_count stats
        /\ (forall t : list Z, t ∈ dom (word_freq stats) <-> In t (words stats))).
Proof.
  eexists _, _. split; [reflexivity|]. split; [reflexivity|].
  eapply (analyze_file_word_statistics sample_unicode sample_models
            (sample_env sample_en_text 38) sample_path).
  reflexivity.
Defined.

Lemma analyze_file_unreadable_witness :
  analyze_file sample_unicode sample_models (sample_env sample_en_text 38)
    (of_string "missing.txt"%string)
  = (None, [AnalysisFailed (of_string "No such file or directory"%string)])
  /\ main sample_unicode sample_models (sample_env sample_en_text 38)
       sample_world (of_string "missing.txt"%string) (of_string "pdf"%string)
     = [Print Analyzing;
        Print (AnalysisFailed (of_string "No such file or directory"%string))].
Proof.
  exact (analyze_file_unreadable sample_unicode sample_models
           (sample_env sample_en_text 38) sample_world
           (of_string "missing.txt"%string)
           (of_string "pdf"%string)
           (of_string "No such file or directory"%string) eq_refl).
Defined.

Lemma analyze_file_deterministic_witness :
  analyze_file sample_unicode sample_models (sample_env sample_en_text 38)
    sample_path
  = analyze_file sample_unicode sample_models_elsewhere
      (sample_env_two_files sample_en_text 38) sample_path.
Proof.
  apply (analyze_file_deterministic sample_unicode sample_models
           sample_models_elsewhere (sample_env sample_en_text 38)
           (sample_env_two_files sample_en_text 38) sample_path
           eq_refl eq_refl eq_refl).
  intros content [= <-]. repeat split.
Defined.

Lemma sample_unicode_lower_table (c d : char) :
  128 <= c -> In d (to_lower_full sample_unicode c) -> is_ascii_upper d = false.
Proof.
  intros Hc. cbn.
  destruct (c =? 8490); [intros [<-|[]]; reflexivity|].
  destruct (c =? 304); [intros [<-|[<-|[]]]; reflexivity|].
  destruct (c =? 201); [intros [<-|[]]; reflexivity|].
  intros [<-|[]]. unfold is_ascii_upper, between.
  apply andb_false_iff. right. apply Z.leb_gt. lia.
Qed.

Lemma tokenize_text_en_lowercase_witness :
  of_string "wonderful"%string <> []
  /\ Forall (fun c => 97 <= c <= 122) (of_string "wonderful"%string).
Proof.
  apply (tokenize_text_en_lowercase sample_unicode sample_models
           sample_unicode_lower_table sample_en_text _ eq_refl).
  vm_compute. tauto.
Defined.

(** ** The scenarios of the specification on the sample inputs *)

Example english_scenario_tokens :
  detect_language sample_unicode sample_en_text = en
  /\ tokenize_text sample_unicode sample_models sample_en_text en
     = Return (map of_string
                 ["i"; "love"; "this"; "it"; "is"; "wonderful"; "and"; "great"]%string).
Proof. split; reflexivity. Qed.

Example english_scenario_sentiment :
  analyze_sentiment sample_models sample_en_text en
  = ({| score := ((0.8 + 0.9) / 2)%float;
        polarity := Positive;
        intensity := {| i_positive := 0.6%float; i_negative := 0%float;
                        i_neutral := 0.4%float |};
        keywords := [(of_string "wonderful"%string, of_string "JJ"%string);
                     (of_string "great"%string, of_string "JJ"%string)] |}, []).
Proof. reflexivity. Qed.

Example chinese_scenario :
  detect_language sample_unicode sample_zh_text = zh
  /\ analyze_sentiment sample_models sample_zh_text zh
     = ({| score := 0.9%float;
           polarity := Positive;
           intensity := intensity default_sentiment;
           keywords := [([22909], of_string "a"%string)] |}, []).
Proof. split; reflexivity. Qed.

Example mixed_text_tokens :
  tokenize_text sample_unicode sample_models
    (of_string "Don't mix abc123 or x_y; caf"%string ++ [233]
     ++ of_string " 3D Hello-World "%string ++ [8490; 32; 304]) en
  = Return (map of_string ["don"; "t"; "mix"; "or"; "hello"; "world"; "k"; "i"]%string).
Proof. reflexivity. Qed.

Example driver_on_sample :
  main sample_unicode sample_models (sample_env sample_en_text 38) sample_world
    sample_path (of_string "txt"%string)
  = match analyze_file sample_unicode sample_models (sample_env sample_en_text 38)
            sample_path with
    | (Some stats, _) =>
        [Print Analyzing;
         Print (Summary en Positive ((0.8 + 0.9) / 2)%float);
         SaveFigure stats; Print ChartSaved; Print Finished]
    | (None, _) => []
    end.
Proof. reflexivity. Qed.

(** * Further properties of the code *)

(** ** The counter in insertion order *)

Section CounterItemsFacts.

Lemma bump_keys (w : list Z) (items : list (list Z * nat)) :
  map fst (bump w items) =
  map fst items ++ (if bool_decide (w ∈ map fst items) then [] else [w]).
Proof.
  induction items as [|[k n] rest IH]; [reflexivity|].
  cbn [bump map fst]. destruct (decide (k = w)) as [->|Hk].
  - rewrite bool_decide_true by reflexivity.
    cbn [map fst]. rewrite bool_decide_true by (left).
    now rewrite app_nil_r.
  - rewrite bool_decide_false by exact Hk.
    cbn [map fst]. rewrite IH. cbn [app]. f_equal.
    destruct (bool_decide (w ∈ map fst rest)) eqn:E.
    + apply bool_decide_eq_true in E.
      rewrite bool_decide_true by (now right). reflexivity.
    + apply bool_decide_eq_false in E.
      rewrite bool_decide_false; [reflexivity|].
      intros H. apply elem_of_cons in H as [H|H]; [congruence|contradiction].
Qed.

Lemma bump_to_map (w : list Z) (items : list (list Z * nat)) :
  (list_to_map (bump w items) : gmap (list Z) nat)
  = count_element (list_to_map items) w.
Proof.
  unfold count_element.
  induction items as [|[k n] rest IH]; [reflexivity|].
  cbn [bump]. destruct (decide (k = w)) as [->|Hk].
  - rewrite bool_decide_true by reflexivity. cbn.
    rewrite lookup_insert_eq. cbn. now rewrite insert_insert_eq.
  - rewrite bool_decide_false by exact Hk. cbn. cbn in IH. rewrite IH.
    rewrite lookup_insert_ne by exact Hk.
    now rewrite insert_insert_ne by congruence.
Qed.

Lemma foldl_bump_to_map (l : list (list Z)) (items : list (list Z * nat)) :
  (list_to_map (foldl (fun items w => bump w items) items l) : gmap (list Z) nat)
  = foldl count_element (list_to_map items) l.
Proof.
  revert items. induction l as [|w l IH]; intros items; [reflexivity|].
  cbn [foldl]. now rewrite IH, bump_to_map.
Qed.

(** The ordered pairs hold the same dictionary as [Counter]. *)
Lemma counter_items_to_map (l : list (list Z)) :
  (list_to_map (counter_items l) : gmap (list Z) nat) = Counter l.
Proof. unfold counter_items, Counter. now rewrite foldl_bump_to_map. Qed.

Lemma bump_NoDup (w : list Z) (items : list (list Z * nat)) :
  NoDup (map fst items) -> NoDup (map fst (bump w items)).
Proof.
  intros H. rewrite bump_keys. case_bool_decide as Hw.
  - now rewrite app_nil_r.
  - apply NoDup_app. split; [exact H|]. split.
    + intros x Hx Hx'. apply list_elem_of_singleton in Hx'. now subst.
    + apply NoDup_singleton.
Qed.

Lemma counter_items_NoDup (l : list (list Z)) : NoDup (map fst (counter_items l)).
Proof.
  unfold counter_items.
  assert (H : forall items, NoDup (map fst items) ->
                NoDup (map fst (foldl (fun items w => bump w items) items l))).
  { induction l as [|w l IH]; intros items Hi; [exact Hi|].
    cbn [foldl]. now apply IH, bump_NoDup. }
  apply H. constructor.
Qed.

(** Each pair holds a word of the list and the number of its occurrences. *)
Lemma counter_items_count (l : list (list Z)) (w : list Z) (n : nat) :
  (w, n) ∈ counter_items l <-> n = occurrences w l /\ In w l.
Proof.
  pose proof (elem_of_list_to_map (M := gmap (list Z)) (counter_items l) w n
                (counter_items_NoDup l)) as ->.
  rewrite counter_items_to_map. unfold occurrences.
  rewrite <- (Counter_count l w). split.
  - intros H. rewrite H. split; [reflexivity|].
    apply list_elem_of_In.
    rewrite <- (elem_of_list_to_set (C := gset (list Z))), <- Counter_dom.
    apply elem_of_dom. now exists n.
  - intros [-> Hin].
    assert (Hd : w ∈ dom (Counter l)).
    { rewrite Counter_dom, elem_of_list_to_set. now apply list_elem_of_In. }
    apply elem_of_dom in Hd as [m Hm]. now rewrite Hm.
Qed.

End CounterItemsFacts.

Section FirstOccurrenceFacts.

Lemma filter_andb {A : Type} (f g : A -> bool) (l : list A) :
  List.filter f (List.filter g l) = List.filter (fun x => f x && g x) l.
Proof.
  induction l as [|x l IH]; [reflexivity|].
  cbn. destruct (g x); cbn; [destruct (f x); now rewrite IH | now rewrite andb_false_r].
Qed.

Lemma foldl_bump_keys (l : list (list Z)) (items : list (list Z * nat)) :
  map fst (foldl (fun items w => bump w items) items l) =
  map fst items
  ++ List.filter (fun w => negb (bool_decide (w ∈ map fst items)))
       (first_occurrences l).
Proof.
  revert items. induction l as [|x l IH]; intros items.
  - cbn. now rewrite app_nil_r.
  - cbn [foldl first_occurrences List.filter]. rewrite IH, bump_keys.
    rewrite filter_andb.
    destruct (bool_decide (x ∈ map fst items)) eqn:E; cbn [negb].
    + rewrite app_nil_r. f_equal. apply List.filter_ext. intros y.
      apply bool_decide_eq_true in E.
      destruct (bool_decide (y ∈ map fst items)) eqn:Ey; [reflexivity|].
      cbn. apply bool_decide_eq_false in Ey.
      rewrite bool_decide_false; [reflexivity|]. congruence.
    + rewrite <- app_assoc. cbn [app]. do 2 f_equal.
      apply List.filter_ext. intros y.
      destruct (decide (y = x)) as [->|Hy].
      * rewrite (bool_decide_true (x = x)) by reflexivity.
        rewrite andb_false_r.
        rewrite bool_decide_true; [reflexivity|].
        apply elem_of_app. right. now left.
      * rewrite (bool_decide_false (y = x)) by exact Hy. rewrite andb_true_r.
        f_equal. apply bool_decide_ext. rewrite elem_of_app, list_elem_of_singleton.
        tauto.
Qed.

(** The keys of the counter come in order of first occurrence. *)
Lemma counter_items_keys (l : list (list Z)) :
  map fst (counter_items l) = first_occurrences l.
Proof.
  unfold counter_items. rewrite foldl_bump_keys. cbn.
  rewrite <- (List.filter_ext (fun _ => true)).
  - clear. induction (first_occurrences l) as [|x t IH]; [reflexivity|].
    cbn. now rewrite IH.
  - intros y. rewrite bool_decide_false; [reflexivity|]. apply not_elem_of_nil.
Qed.

End FirstOccurrenceFacts.

(** ** Sorting by count *)

Section SortFacts.

(** Decreasing counts. *)
Local Abbreviation by_count := (fun a b : list Z * nat => (snd b <= snd a)%nat).

Lemma insert_by_count_perm (x : list Z * nat) (l : list (list Z * nat)) :
  insert_by_count x l ≡ₚ x :: l.
Proof.
  induction l as [|y l IH]; [reflexivity|].
  cbn [insert_by_count]. destruct (snd x <? snd y)%nat; [|reflexivity].
  rewrite IH. apply Permutation_swap.
Qed.

Lemma sorted_by_count_perm (l : list (list Z * nat)) : sorted_by_count l ≡ₚ l.
Proof.
  induction l as [|x l IH]; [reflexivity|].
  cbn [sorted_by_count foldr]. rewrite insert_by_count_perm.
  fold (sorted_by_count l). now rewrite IH.
Qed.

Lemma insert_by_count_sorted (x : list Z * nat) (l : list (list Z * nat)) :
  StronglySorted by_count l -> StronglySorted by_count (insert_by_count x l).
Proof.
  induction l as [|y l IH]; intros Hl.
  - cbn. constructor; constructor.
  - cbn [insert_by_count]. apply StronglySorted_inv in Hl as [Hl Hy].
    destruct (Nat.ltb_spec (snd x) (snd y)) as [Hlt|Hge].
    + constructor; [now apply IH|].
      rewrite (insert_by_count_perm x l). constructor; [cbn; lia | exact Hy].
    + constructor; [now constructor|].
      constructor; [exact Hge|].
      eapply Forall_impl; [exact Hy|]. cbn. intros z Hz. lia.
Qed.

Lemma sorted_by_count_sorted (l : list (list Z * nat)) :
  StronglySorted by_count (sorted_by_count l).
Proof.
  induction l as [|x l IH]; [constructor|].
  cbn [sorted_by_count foldr]. now apply insert_by_count_sorted.
Qed.

(** Stability: entries with one count keep their relative order. *)
Lemma insert_by_count_stable (k : nat) (x : list Z * nat) (l : list (list Z * nat)) :
  List.filter (fun e => (snd e =? k)%nat) (insert_by_count x l)
  = List.filter (fun e => (snd e =? k)%nat) (x :: l).
Proof.
  induction l as [|y l IH]; [reflexivity|].
  cbn [insert_by_count]. destruct (Nat.ltb_spec (snd x) (snd y)) as [Hlt|Hge];
    [|reflexivity].
  cbn [List.filter] in *.
  destruct (Nat.eqb_spec (snd y) k) as [Hy|Hy].
  - rewrite IH. destruct (Nat.eqb_spec (snd x) k) as [Hx|Hx]; [lia|reflexivity].
  - rewrite IH. reflexivity.
Qed.

Lemma sorted_by_count_stable (k : nat) (l : list (list Z * nat)) :
  List.filter (fun e => (snd e =? k)%nat) (sorted_by_count l)
  = List.filter (fun e => (snd e =? k)%nat) l.
Proof.
  induction l as [|x l IH]; [reflexivity|].
  cbn [sorted_by_count foldr]. rewrite insert_by_count_stable.
  cbn [List.filter]. fold (sorted_by_count l). now rewrite IH.
Qed.

Lemma sorted_lookup (l : list (list Z * nat)) :
  StronglySorted by_count l ->
  forall i j a b, (i < j)%nat -> l !! i = Some a -> l !! j = Some b ->
                  (snd b <= snd a)%nat.
Proof.
  induction 1 as [|x l Hl IH Hx]; intros i j a b Hij Ha Hb.
  - discriminate.
  - destruct j as [|j]; [lia|]. cbn in Hb.
    destruct i as [|i].
    + cbn in Ha. injection Ha as <-.
      rewrite List.Forall_forall in Hx. apply Hx.
      apply list_elem_of_In, list_elem_of_lookup. now exists j.
    + cbn in Ha. apply (IH i j); [lia|assumption|assumption].
Qed.

End SortFacts.

(** ** The chart *)

Section ChartFacts.

Lemma most_common_split (n : nat) (items : list (list Z * nat)) :
  sorted_by_count items = most_common n items ++ drop n (sorted_by_count items).
Proof. unfold most_common. now rewrite take_drop. Qed.

Lemma most_common_subset (n : nat) (items : list (list Z * nat)) (e : list Z * nat) :
  e ∈ most_common n items -> e ∈ items.
Proof.
  intros H. rewrite <- (sorted_by_count_perm items), (most_common_split n items).
  apply elem_of_app. now left.
Qed.

Lemma most_common_keys_NoDup (n : nat) (items : list (list Z * nat)) :
  NoDup (map fst items) -> NoDup (map fst (most_common n items)).
Proof.
  intros H.
  rewrite <- (Permutation_map fst (sorted_by_count_perm items)) in H.
  rewrite (most_common_split n items), map_app in H.
  now apply NoDup_app in H as [H _].
Qed.

End ChartFacts.

(** The bars, in terms of the list of words alone. *)
Lemma figure_bars (stats : Stats) :
  let f := figure_of stats in
  let tokens := words stats in
  length (bar_labels f) = length (bar_values f)
  /\ length (bar_labels f) = Nat.min 10 (length (first_occurrences tokens))
  /\ NoDup (bar_labels f)
  /\ (forall i w v, bar_labels f !! i = Some w -> bar_values f !! i = Some v ->
        In w tokens /\ v = occurrences w tokens)
  /\ (forall i j v v', (i <= j)%nat -> bar_values f !! i = Some v ->
        bar_values f !! j = Some v' -> (v' <= v)%nat)
  /\ (forall w v, In w tokens -> ~ In w (bar_labels f) -> In v (bar_values f) ->
        (occurrences w tokens <= v)%nat)
  /\ length (pie_values f) = length (pie_labels f).
Proof.
  cbv zeta. unfold figure_of. cbn [bar_labels bar_values pie_values pie_labels].
  set (items := counter_items (words stats)).
  set (top := most_common 10 items).
  split; [now rewrite !length_map|].
  split.
  { rewrite length_map. unfold top, most_common. rewrite length_take.
    rewrite (Permutation_length (sorted_by_count_perm items)).
    now rewrite <- counter_items_keys, length_map. }
  split; [apply most_common_keys_NoDup, counter_items_NoDup|].
  split.
  { intros i w v Hw Hv.
    change (map fst top) with (fst <$> top) in Hw.
    change (map snd top) with (snd <$> top) in Hv.
    apply list_lookup_fmap_Some in Hw as ([w' n] & -> & He).
    apply list_lookup_fmap_Some in Hv as (e & -> & He').
    rewrite He in He'. injection He' as <-. cbn.
    assert (Hin : (w', n) ∈ items).
    { apply (most_common_subset 10), list_elem_of_lookup. now exists i. }
    apply counter_items_count in Hin as [-> Hin]. now split. }
  split.
  { intros i j v v' Hij Hv Hv'.
    change (map snd top) with (snd <$> top) in Hv, Hv'.
    apply list_lookup_fmap_Some in Hv as (a & -> & Ha).
    apply list_lookup_fmap_Some in Hv' as (b & -> & Hb).
    destruct (decide (i = j)) as [->|Hne].
    { rewrite Ha in Hb. injection Hb as <-. lia. }
    apply lookup_take_Some in Ha as [Ha _]. apply lookup_take_Some in Hb as [Hb _].
    apply (sorted_lookup _ (sorted_by_count_sorted items) i j); [lia|assumption..]. }
  split.
  { intros w v Hw Hout Hv.
    apply list_elem_of_In in Hv.
    change (map snd top) with (snd <$> top) in Hv.
    apply list_elem_of_fmap in Hv as (a & -> & Ha).
    assert (Hin : (w, occurrences w (words stats)) ∈ items).
    { apply counter_items_count. now split. }
    rewrite <- (sorted_by_count_perm items), (most_common_split 10 items) in Hin.
    apply elem_of_app in Hin as [Hin|Hin].
    - contradict Hout. apply list_elem_of_In.
      change (map fst top) with (fst <$> top).
      apply list_elem_of_fmap. now exists (w, occurrences w (words stats)).
    - pose proof (sorted_by_count_sorted items) as Hs.
      rewrite (most_common_split 10 items) in Hs.
      apply (StronglySorted_app_1_elem_of _ _ _ a _ Hs Ha Hin). }
  destruct (language stats); reflexivity.
Qed.

(** Ties, in terms of the list of words alone. *)
Lemma figure_ties (stats : Stats) (k : nat) :
  let tokens := words stats in
  List.filter (fun w => (occurrences w tokens =? k)%nat) (bar_labels (figure_of stats))
  `prefix_of`
  List.filter (fun w => (occurrences w tokens =? k)%nat) (first_occurrences tokens).
Proof.
  cbv zeta. unfold figure_of. cbn [bar_labels].
  set (tokens := words stats). set (items := counter_items tokens).
  assert (Hcount : forall l : list (list Z * nat),
            (forall e, e ∈ l -> e ∈ items) ->
            List.filter (fun w => (occurrences w tokens =? k)%nat) (map fst l)
            = map fst (List.filter (fun e => (snd e =? k)%nat) l)).
  { intros l Hl. rewrite filter_map_swap. f_equal.
    induction l as [|[w n] l IH]; [reflexivity|].
    cbn [List.filter fst snd].
    assert (Hw : n = occurrences w tokens).
    { apply (counter_items_count tokens w n), Hl. now left. }
    rewrite <- Hw. rewrite IH; [reflexivity|].
    intros e He. apply Hl. now right. }
  rewrite <- counter_items_keys. fold items.
  rewrite (Hcount (most_common 10 items)) by apply most_common_subset.
  rewrite (Hcount items) by auto.
  rewrite <- (sorted_by_count_stable k items).
  rewrite (most_common_split 10 items) at 1.
  rewrite List.filter_app, map_app. now apply prefix_app_r.
Qed.

Section ChartTotals.

Lemma list_sum_perm (l1 l2 : list nat) : l1 ≡ₚ l2 -> list_sum l1 = list_sum l2.
Proof.
  induction 1 as [|x l l' _ IH|x y l|l l' l'' _ IH1 _ IH2];
    cbn [list_sum fold_right]; unfold list_sum in *; lia.
Qed.

Lemma list_sum_take (n : nat) (l : list nat) : (list_sum (take n l) <= list_sum l)%nat.
Proof.
  rewrite <- (take_drop n l) at 2. rewrite list_sum_app. lia.
Qed.

Lemma bump_sum (w : list Z) (items : list (list Z * nat)) :
  list_sum (map snd (bump w items)) = S (list_sum (map snd items)).
Proof.
  induction items as [|[k n] rest IH]; [reflexivity|].
  cbn [bump]. destruct (bool_decide (k = w)).
  - cbn [map snd]. change (list_sum (S n :: map snd rest)
      = S (n + list_sum (map snd rest))). cbn. reflexivity.
  - cbn [map snd]. change (n + list_sum (map snd (bump w rest))
      = S (n + list_sum (map snd rest)))%nat. rewrite IH. lia.
Qed.

Lemma counter_items_sum (l : list (list Z)) :
  list_sum (map snd (counter_items l)) = length l.
Proof.
  unfold counter_items.
  assert (H : forall items,
            list_sum (map snd (foldl (fun items w => bump w items) items l))
            = (list_sum (map snd items) + length l)%nat).
  { induction l as [|w l IH]; intros items; cbn [foldl length]; [lia|].
    rewrite IH, bump_sum. lia. }
  now rewrite H.
Qed.

Lemma figure_total (stats : Stats) :
  (list_sum (bar_values (figure_of stats)) <= length (words stats))%nat
  /\ ((length (first_occurrences (words stats)) <= 10)%nat ->
      list_sum (bar_values (figure_of stats)) = length (words stats)).
Proof.
  unfold figure_of. cbn [bar_values].
  set (items := counter_items (words stats)).
  assert (Hs : list_sum (map snd (sorted_by_count items)) = length (words stats)).
  { rewrite (list_sum_perm _ (map snd items)).
    - apply counter_items_sum.
    - apply Permutation_map, sorted_by_count_perm. }
  unfold most_common. split.
  - rewrite <- Hs. change (map snd (take 10 (sorted_by_count items)))
      with (snd <$> take 10 (sorted_by_count items)).
    rewrite fmap_take. apply list_sum_take.
  - intros Hk. rewrite take_ge; [exact Hs|].
    rewrite (Permutation_length (sorted_by_count_perm items)).
    unfold items. now rewrite <- (length_map fst), counter_items_keys.
Qed.

End ChartTotals.

Lemma Counter_lookup_occurrences (l : list (list Z)) (t : list Z) (n : nat) :
  Counter l !! t = Some n <-> n = occurrences t l /\ (1 <= n)%nat.
Proof.
  unfold occurrences. rewrite <- (Counter_count l t).
  assert (Hdom : is_Some (Counter l !! t)
                 <-> (1 <= count_occ (List.list_eq_dec Z.eq_dec) l t)%nat).
  { rewrite <- elem_of_dom, Counter_dom, elem_of_list_to_set, list_elem_of_In.
    rewrite (count_occ_In (List.list_eq_dec Z.eq_dec)). reflexivity. }
  rewrite <- (Counter_count l t) in Hdom. split.
  - intros Hn. rewrite Hn in Hdom |- *. cbn in *. split; [reflexivity|].
    apply Hdom. now exists n.
  - intros [-> Hn]. apply Hdom in Hn as [m Hm]. now rewrite Hm.
Qed.

(** ** More on the sentiment analysis *)

(** X1.  When no model call raises, the label is the threshold function of
    the score: above 0.6 positive, below 0.4 negative, from 0.4 to 0.6
    neutral, on both language paths. *)
Theorem classified_when_nothing_raised (M : Models) (text : str) (lang : Language) :
  completed M text lang ->
  let r := fst (analyze_sentiment M text lang) in
  polarity r = polarity_of_score (score r)
  /\ ((0.6 <? score r)%float = true -> polarity r = Positive)
  /\ ((score r <? 0.4)%float = true -> polarity r = Negative)
  /\ ((0.4 <=? score r)%float = true -> (score r <=? 0.6)%float = true ->
      polarity r = Neutral).
Proof.
  intros Hc. cbv zeta. split; [now apply completed_polarity|].
  apply (completed_thresholds M text lang Hc).
Qed.

Lemma classified_when_nothing_raised_witness :
  let r := fst (analyze_sentiment sample_models sample_en_text en) in
  polarity r = polarity_of_score (score r)
  /\ ((0.6 <? score r)%float = true -> polarity r = Positive)
  /\ ((score r <? 0.4)%float = true -> polarity r = Negative)
  /\ ((0.4 <=? score r)%float = true -> (score r <=? 0.6)%float = true ->
      polarity r = Neutral).
Proof.
  exact (classified_when_nothing_raised sample_models sample_en_text en eq_refl).
Defined.

(** X2.  A scorer that raises leaves the initial dictionary untouched: when
    the exception comes from SnowNLP's classifier, from VADER, or from
    TextBlob's polarity, the result is the default profile and one diagnostic
    line is printed. *)
Theorem scorer_failure_gives_default (M : Models) (text : str) (lang : Language)
    (e : exn) :
  match lang with
  | zh => snownlp_sentiments M text = Raise e
  | en => vader_polarity_scores M text = Raise e
          \/ (exists v, vader_polarity_scores M text = Return v
                        /\ textblob_polarity M text = Raise e)
  end ->
  analyze_sentiment M text lang = (default_sentiment, [SentimentError e]).
Proof.
  unfold analyze_sentiment. rewrite try_block_run.
  destruct lang; [rewrite score_zh_run | rewrite score_en_run].
  - now intros ->.
  - intros [-> | (v & -> & ->)]; reflexivity.
Qed.

Lemma scorer_failure_gives_default_witness :
  analyze_sentiment models_without_lexicon sample_en_text en
  = (default_sentiment, [SentimentError (of_string "LookupError"%string)]).
Proof.
  apply (scorer_failure_gives_default models_without_lexicon sample_en_text en).
  left. reflexivity.
Defined.

Section ProfileFacts.
Context (M : Models).

(** The outcome of a call, case by case. *)
Lemma analyze_sentiment_cases (text : str) (lang : Language) :
  let r := analyze_sentiment M text lang in
  (snd r = [] /\ polarity (fst r) = polarity_of_score (score (fst r)))
  \/ (exists e, snd r = [SentimentError e]
                /\ polarity (fst r) = Neutral /\ keywords (fst r) = []).
Proof.
  cbv zeta. unfold analyze_sentiment. rewrite try_block_run.
  destruct lang; [rewrite score_zh_run | rewrite score_en_run].
  - destruct (snownlp_sentiments M text) as [s|e]; [|right; now exists e].
    destruct (snownlp_tags M text) as [tags|e]; [|right; now exists e].
    rewrite classify_run by reflexivity. now left.
  - destruct (vader_polarity_scores M text) as [v|e]; [|right; now exists e].
    destruct (textblob_polarity M text) as [p|e]; [|right; now exists e].
    cbv zeta.
    destruct (textblob_tags M text) as [tags|e]; [|right; now exists e].
    rewrite classify_run by reflexivity. now left.
Qed.

End ProfileFacts.

(** X3.  [analyze_sentiment] prints at most one diagnostic line; when it
    prints one, the returned label is neutral and no keywords are returned. *)
Theorem diagnostic_means_neutral (M : Models) (text : str) (lang : Language) :
  let r := analyze_sentiment M text lang in
  snd r = []
  \/ (exists e, snd r = [SentimentError e]
                /\ polarity (fst r) = Neutral /\ keywords (fst r) = []).
Proof.
  cbv zeta. destruct (analyze_sentiment_cases M text lang) as [[H _]|H];
    [now left | now right].
Qed.

(** X4.  A label other than neutral is always backed by the score: whatever
    the models do, a positive label comes with a score above 0.6 and a
    negative label with a score below 0.4. *)
Theorem label_backed_by_score (M : Models) (text : str) (lang : Language) :
  let r := fst (analyze_sentiment M text lang) in
  (polarity r = Positive -> (0.6 <? score r)%float = true)
  /\ (polarity r = Negative ->
      (score r <? 0.4)%float = true /\ (0.6 <? score r)%float = false).
Proof.
  cbv zeta.
  destruct (analyze_sentiment_cases M text lang) as [[_ H]|(e & _ & H & _)];
    rewrite H; [|split; discriminate].
  unfold polarity_of_score.
  destruct (0.6 <? _)%float eqn:E1; [split; [reflexivity|discriminate]|].
  destruct (_ <? 0.4)%float eqn:E2; split; try discriminate; auto.
Qed.

(** X5.  The keywords are adjectives of the tagger's output: every keyword
    is a (word, tag) pair returned by the tagger of the language whose tag is
    an adjective tag ([a], [ad], [ag], [an] for Chinese, a tag starting with
    [JJ] for English); when nothing raised, the keywords are all such pairs,
    in the tagger's order. *)
Theorem keywords_are_tagged_adjectives (M : Models) (text : str) (lang : Language) :
  let r := fst (analyze_sentiment M text lang) in
  let tagger := match lang with zh => snownlp_tags M | en => textblob_tags M end in
  let adjective := match lang with zh => zh_adjective_tag | en => en_adjective_tag end in
  (forall kw, In kw (keywords r) ->
     adjective (snd kw) = true
     /\ exists tags, tagger text = Return tags /\ In kw tags)
  /\ (completed M text lang ->
      exists tags, tagger text = Return tags
        /\ keywords r = List.filter (fun wt => adjective (snd wt)) tags).
Proof.
  cbv zeta. unfold completed, analyze_sentiment. rewrite try_block_run.
  destruct lang; [rewrite score_zh_run | rewrite score_en_run].
  - destruct (snownlp_sentiments M text) as [s|e];
      [|split; [intros kw []|discriminate]].
    destruct (snownlp_tags M text) as [tags|e];
      [|split; [intros kw []|discriminate]].
    rewrite classify_run by reflexivity. cbn. split.
    + intros kw Hkw. apply filter_In in Hkw as [Hin Hadj].
      split; [exact Hadj|]. now exists tags.
    + intros _. now exists tags.
  - destruct (vader_polarity_scores M text) as [v|e];
      [|split; [intros kw []|discriminate]].
    destruct (textblob_polarity M text) as [p|e];
      [|split; [intros kw []|discriminate]].
    cbv zeta.
    destruct (textblob_tags M text) as [tags|e];
      [|split; [intros kw []|discriminate]].
    rewrite classify_run by reflexivity. cbn. split.
    + intros kw Hkw. apply filter_In in Hkw as [Hin Hadj].
      split; [exact Hadj|]. now exists tags.
    + intros _. now exists tags.
Qed.

(** X6.  On the Chinese path the intensity is never set and keeps its three
    zeros; the score is the classifier's output as soon as the classifier
    returns, also when the tagger raises afterwards, and the initial 0.5 when
    the classifier raises. *)
Theorem zh_profile (M : Models) (text : str) :
  let r := fst (analyze_sentiment M text zh) in
  intensity r = intensity default_sentiment
  /\ (forall s, snownlp_sentiments M text = Return s -> score r = s)
  /\ (forall e, snownlp_sentiments M text = Raise e -> score r = score default_sentiment).
Proof.
  cbv zeta. unfold analyze_sentiment. rewrite try_block_run, score_zh_run.
  destruct (snownlp_sentiments M text) as [s|e].
  - destruct (snownlp_tags M text) as [tags|e'].
    + rewrite classify_run by reflexivity. cbn.
      split; [reflexivity|]. split; [now intros s' [= <-] | discriminate].
    + cbn. split; [reflexivity|]. split; [now intros s' [= <-] | discriminate].
  - cbn. split; [reflexivity|]. split; [discriminate | reflexivity].
Qed.

(** ** More on the main analysis function *)

Section LineCountFacts.

Lemma count_lines_cons (b : bool) (c : char) (s : str) :
  count_lines b (c :: s) =
  if is_linebreak c then
    match s with
    | d :: s' => if (c =? 13) && (d =? 10) then S (count_lines false s')
                 else S (count_lines false s)
    | [] => S (count_lines false s)
    end
  else count_lines true s.
Proof.
  cbn [count_lines]. destruct (is_linebreak c); [|reflexivity].
  destruct (Z.eqb_spec c 13) as [->|Hc].
  - destruct s as [|d s']; [reflexivity|].
    destruct (Z.eqb_spec d 10) as [->|Hd]; [reflexivity|]. cbn [andb].
    destruct d as [|p|p]; try reflexivity.
    repeat (destruct p as [p|p|]; try reflexivity).
    now contradiction Hd.
  - cbn [andb].
    destruct c as [|p|p]; try (destruct s; reflexivity).
    repeat (destruct p as [p|p|]; try (destruct s; reflexivity)).
    now contradiction Hc.
Qed.

Lemma count_lines_bounds (n : nat) :
  forall (s : str) (b : bool),
    (length s <= n)%nat ->
    (count_lines b s <= length s + (if b then 1 else 0))%nat
    /\ (b = true \/ s <> [] -> 1 <= count_lines b s)%nat.
Proof.
  induction n as [|n IH]; intros s b Hlen.
  - destruct s; [|cbn in Hlen; lia]. cbn. destruct b; split; try lia.
    intros [H|H]; [discriminate|now contradiction H].
  - destruct s as [|c s].
    { cbn. destruct b; split; try lia.
      intros [H|H]; [discriminate|now contradiction H]. }
    cbn [length] in Hlen |- *. rewrite count_lines_cons.
    destruct (is_linebreak c).
    + destruct s as [|d s'].
      * cbn. split; lia.
      * destruct ((c =? 13) && (d =? 10)).
        -- destruct (IH s' false) as [H _]; [cbn in Hlen; lia|].
           cbn [length]. split; lia.
        -- destruct (IH (d :: s') false) as [H _]; [cbn in Hlen |- *; lia|].
           cbn [length] in *. split; lia.
    + destruct (IH s true) as [H1 H2]; [lia|]. split; [destruct b; lia|].
      intros _. apply H2. now left.
Qed.

Lemma count_lines_no_break (s : str) :
  Forall (fun c => is_linebreak c = false) s -> count_lines true s = 1%nat.
Proof.
  induction 1 as [|c s Hc _ IH]; [reflexivity|].
  rewrite count_lines_cons, Hc. exact IH.
Qed.

End LineCountFacts.

(** X7.  Lines and characters: in every dictionary that [analyze_file]
    returns, [char_count] is the number of code points of the content,
    [line_count] is at most [char_count] and is zero exactly when the file is
    empty; a non-empty content without any line boundary counts as one
    line. *)
Theorem analyze_file_line_and_char_counts (U : Unicode) (M : Models) (E : Env)
    (file_path : str) (stats : Stats) (printed : list message) :
  analyze_file U M E file_path = (Some stats, printed) ->
  exists content,
    read_text E file_path = Return content
    /\ char_count stats = length content
    /\ (line_count stats <= char_count stats)%nat
    /\ (line_count stats = 0%nat <-> content = [])
    /\ (content <> [] -> Forall (fun c => is_linebreak c = false) content ->
        line_count stats = 1%nat).
Proof.
  intros H.
  apply analyze_file_Some in H as (content & size & tokens & Hr & _ & _ & _ & ->).
  exists content. cbn.
  destruct (count_lines_bounds (length content) content false (le_n _)) as [H1 H2].
  split; [exact Hr|]. split; [reflexivity|]. split; [lia|]. split; [split|].
  - intros H0. destruct content as [|c s]; [reflexivity|].
    assert (1 <= count_lines false (c :: s))%nat by (apply H2; now right). lia.
  - now intros ->.
  - intros Hne Hnb. destruct content as [|c s]; [now contradiction Hne|].
    rewrite count_lines_cons.
    rewrite List.Forall_forall in Hnb. rewrite (Hnb c) by now left.
    apply count_lines_no_break, List.Forall_forall.
    intros d Hd. apply Hnb. now right.
Qed.

Lemma analyze_file_line_and_char_counts_witness :
  exists stats printed,
    analyze_file sample_unicode sample_models (sample_env sample_en_text 38)
      sample_path = (Some stats, printed)
    /\ exists content,
         read_text (sample_env sample_en_text 38) sample_path = Return content
         /\ char_count stats = length content
         /\ (line_count stats <= char_count stats)%nat
         /\ (line_count stats = 0%nat <-> content = [])
         /\ (content <> [] -> Forall (fun c => is_linebreak c = false) content ->
             line_count stats = 1%nat).
Proof.
  eexists _, _. split; [reflexivity|].
  eapply (analyze_file_line_and_char_counts sample_unicode sample_models
            (sample_env sample_en_text 38) sample_path).
  reflexivity.
Defined.

(** X8.  Each entry of [word_freq] is a word of [words] with the number of
    its occurrences, which is at least one; words that do not occur have no
    entry. *)
Theorem word_freq_counts_occurrences (U : Unicode) (M : Models) (E : Env)
    (file_path : str) (stats : Stats) (printed : list message) :
  analyze_file U M E file_path = (Some stats, printed) ->
  forall (t : list Z) (n : nat),
    word_freq stats !! t = Some n
    <-> n = occurrences t (words stats) /\ (1 <= n)%nat.
Proof.
  intros H t n.
  apply analyze_file_Some in H as (content & size & tokens & _ & _ & _ & _ & ->).
  cbn. apply Counter_lookup_occurrences.
Qed.

Lemma word_freq_counts_occurrences_witness :
  exists stats printed,
    analyze_file sample_unicode sample_models
      (sample_env (of_string "to be or not to be"%string) 18) sample_path
    = (Some stats, printed)
    /\ (word_freq stats !! of_string "be"%string = Some 2%nat
        <-> 2%nat = occurrences (of_string "be"%string) (words stats)
            /\ (1 <= 2)%nat).
Proof.
  eexists _, _. split; [reflexivity|].
  eapply (word_freq_counts_occurrences sample_unicode sample_models
            (sample_env (of_string "to be or not to be"%string) 18) sample_path).
  reflexivity.
Defined.

Section FailureFacts.
Context (U : Unicode) (M : Models) (E : Env) (W : World).

Lemma tokenize_text_raises (text : str) (lang : Language) (e : exn) :
  tokenize_text U M text lang = Raise e <-> lang = zh /\ jieba_cut M text = Raise e.
Proof.
  destruct lang; cbn; split; try tauto.
  - discriminate.
  - intros [? _]. discriminate.
Qed.

Lemma main_after_failure (file_path choice : str) (e : exn) :
  analyze_file U M E file_path = (None, [AnalysisFailed e]) ->
  main U M E W file_path choice = [Print Analyzing; Print (AnalysisFailed e)].
Proof. intros H. unfold main. now rewrite H. Qed.

End FailureFacts.

(** X9.  The only ways [analyze_file] fails: it returns [None] exactly when
    the file cannot be read, or its size cannot be obtained, or the text is
    detected as Chinese and the segmenter raises; the sentiment models play no
    part.  It then prints one failure line with the exception, and the main
    program stops after that line whatever the export choice. *)
Theorem analyze_file_failure_causes (U : Unicode) (M : Models) (E : Env)
    (W : World) (file_path : str) :
  (fst (analyze_file U M E file_path) = None <->
     (exists e, read_text E file_path = Raise e)
     \/ (exists content e,
           read_text E file_path = Return content
           /\ (getsize E file_path = Raise e
               \/ (detect_language U content = zh /\ jieba_cut M content = Raise e))))
  /\ (fst (analyze_file U M E file_path) = None ->
      exists e, snd (analyze_file U M E file_path) = [AnalysisFailed e]
                /\ forall choice,
                     main U M E W file_path choice
                     = [Print Analyzing; Print (AnalysisFailed e)]).
Proof.
  assert (Hcases :
    (exists e, analyze_file U M E file_path = (None, [AnalysisFailed e])
               /\ ((read_text E file_path = Raise e)
                   \/ (exists content,
                         read_text E file_path = Return content
                         /\ (getsize E file_path = Raise e
                             \/ (detect_language U content = zh
                                 /\ jieba_cut M content = Raise e)))))
    \/ (exists stats printed content size tokens,
          analyze_file U M E file_path = (Some stats, printed)
          /\ read_text E file_path = Return content
          /\ getsize E file_path = Return size
          /\ tokenize_text U M content (detect_language U content) = Return tokens)).
  { unfold analyze_file, analyze_file_body, mbind, result_bind, mret, result_ret.
    destruct (read_text E file_path) as [content|e]; [|left; exists e; auto].
    destruct (getsize E file_path) as [size|e].
    2:{ left. exists e. split; [reflexivity|]. right. exists content. auto. }
    destruct (tokenize_text U M content (detect_language U content))
      as [tokens|e] eqn:Ht.
    2:{ left. exists e. split; [reflexivity|]. right. exists content.
        apply tokenize_text_raises in Ht. auto. }
    destruct (analyze_sentiment M content (detect_language U content)) as [a out].
    right. eexists _, out, content, size, tokens.
    split; [reflexivity|]. split; [reflexivity|]. split; [reflexivity|exact Ht]. }
  split; [split|].
  - intros Hnone.
    destruct Hcases as [(e & _ & [Hr|(content & Hr & Hc)])
                       |(stats & printed & ? & ? & ? & Hs & _)].
    + left. now exists e.
    + right. now exists content, e.
    + rewrite Hs in Hnone. discriminate.
  - intros Hfail.
    destruct Hcases as [(e & -> & _)|(stats & printed & content & size & tokens
                                      & _ & Hr & Hs & Ht)]; [reflexivity|].
    exfalso. destruct Hfail as [(e & He)|(c & e & Hc & [Hg|[Hz Hj]])].
    + congruence.
    + congruence.
    + rewrite Hr in Hc. injection Hc as <-.
      rewrite Hz in Ht. cbn in Ht. congruence.
  - intros Hnone.
    destruct Hcases as [(e & Hf & _)|(stats & printed & ? & ? & ? & Hs & _)].
    + exists e. rewrite Hf. split; [reflexivity|].
      intros choice. now apply main_after_failure.
    + rewrite Hs in Hnone. discriminate.
Qed.

(** X10.  A readable file without any character of U+4E00..U+9FA5 is always
    analysed, whatever the models do: the result is a dictionary with language
    [en], whose tokens are the letter runs of the lower-cased content and
    whose name and size are those of the file; the segmenter is not
    consulted. *)
Theorem english_file_always_analysed (U : Unicode) (M : Models) (E : Env)
    (file_path content : str) (size : Z) :
  read_text E file_path = Return content ->
  getsize E file_path = Return size ->
  (forall c, In c content -> ~ 19968 <= c <= 40869) ->
  exists stats,
    fst (analyze_file U M E file_path) = Some stats
    /\ language stats = en
    /\ words stats = letter_words U (lower U content)
    /\ file_name stats = basename E file_path
    /\ file_size stats = size.
Proof.
  intros Hr Hs Hc.
  assert (Hen : detect_language U content = en).
  { rewrite detect_language_existsb.
    destruct (existsb cjk_set content) eqn:Ex; [|reflexivity].
    apply existsb_exists in Ex as (c & Hin & Hcjk).
    apply cjk_set_range in Hcjk. now destruct (Hc c Hin). }
  unfold analyze_file, analyze_file_body, mbind, result_bind, mret, result_ret.
  rewrite Hr, Hs, Hen. cbn [tokenize_text].
  destruct (analyze_sentiment M content en) as [a out].
  eexists. split; [reflexivity|]. cbn.
  now rewrite findall_word_pattern.
Qed.

Lemma english_file_always_analysed_witness :
  exists stats,
    fst (analyze_file sample_unicode models_without_lexicon
           (sample_env sample_en_text 38) sample_path) = Some stats
    /\ language stats = en
    /\ words stats = letter_words sample_unicode (lower sample_unicode sample_en_text)
    /\ file_name stats = basename (sample_env sample_en_text 38) sample_path
    /\ file_size stats = 38.
Proof.
  apply (english_file_always_analysed sample_unicode models_without_lexicon
           (sample_env sample_en_text 38) sample_path sample_en_text 38
           eq_refl eq_refl).
  intros c Hc. vm_compute in Hc.
  repeat (destruct Hc as [<-|Hc]; [lia|]). destruct Hc.
Defined.

(** X11.  A text with a character of U+4E00..U+9FA5 is tokenized by the
    segmenter alone: when the file and its size can be read and the segmenter
    returns, the dictionary has language [zh] and its [words] are the
    segmenter's output as it stands, with nothing filtered out and nothing
    lower-cased. *)
Theorem chinese_file_tokens (U : Unicode) (M : Models) (E : Env)
    (file_path content : str) (size : Z) (segments : list str) (c : char) :
  read_text E file_path = Return content ->
  getsize E file_path = Return size ->
  In c content -> 19968 <= c <= 40869 ->
  jieba_cut M content = Return segments ->
  exists stats,
    fst (analyze_file U M E file_path) = Some stats
    /\ language stats = zh
    /\ words stats = segments
    /\ word_count stats = length segments.
Proof.
  intros Hr Hs Hin Hc Hj.
  assert (Hzh : detect_language U content = zh).
  { rewrite detect_language_existsb.
    replace (existsb cjk_set content) with true; [reflexivity|].
    symmetry. apply existsb_exists. exists c. split; [exact Hin|].
    now apply cjk_set_range. }
  unfold analyze_file, analyze_file_body, mbind, result_bind, mret, result_ret.
  rewrite Hr, Hs, Hzh. cbn [tokenize_text]. rewrite Hj.
  destruct (analyze_sentiment M content zh) as [a out].
  eexists. repeat split.
Qed.

Lemma chinese_file_tokens_witness :
  exists stats,
    fst (analyze_file sample_unicode sample_models
           (sample_env sample_zh_text 18) sample_path) = Some stats
    /\ language stats = zh
    /\ words stats = map (fun c => [c]) sample_zh_text
    /\ word_count stats = length (map (fun c : Z => [c]) sample_zh_text).
Proof.
  apply (chinese_file_tokens sample_unicode sample_models
           (sample_env sample_zh_text 18) sample_path sample_zh_text 18
           (map (fun c => [c]) sample_zh_text) 25105 eq_refl eq_refl).
  - now left.
  - lia.
  - reflexivity.
Defined.

(** ** The main program *)

Section DriverFacts.
Context (U : Unicode) (M : Models) (E : Env) (W : World).

Lemma generate_charts_run (stats : Stats) (png : bool) :
  generate_charts W stats png =
  if (word_count stats =? 0)%nat then ([], Return (tt, png))
  else match plot W (figure_of stats) with
       | Return _ => ([SaveFigure stats; Print ChartSaved], Return (tt, true))
       | Raise e => ([], Raise e)
       end.
Proof.
  unfold generate_charts. destruct (word_count stats =? 0)%nat; [reflexivity|].
  unfold mbind, Run_bind, draw, print.
  now destruct (plot W (figure_of stats)).
Qed.

Lemma export_report_run (stats : Stats) (format : str) (png : bool) :
  export_report W stats format png =
  if bool_decide (format = of_string "csv"%string) then
    match write_csv W stats with
    | Return _ => ([WriteCsv stats; Print CsvExported], Return (tt, png))
    | Raise e => ([], Raise e)
    end
  else if bool_decide (format = of_string "pdf"%string) then
    match write_pdf W png stats with
    | Return _ => ([WritePdf stats; Print PdfExported], Return (tt, png))
    | Raise e => ([], Raise e)
    end
  else ([], Return (tt, png)).
Proof.
  unfold export_report.
  destruct (bool_decide (format = of_string "csv"%string)).
  { unfold mbind, Run_bind, csv_rows, print. now destruct (write_csv W stats). }
  destruct (bool_decide (format = of_string "pdf"%string)); [|reflexivity].
  unfold mbind, Run_bind, pdf_page, print. now destruct (write_pdf W png stats).
Qed.

Lemma generate_charts_artifacts (stats : Stats) (png : bool) (a : effect) :
  In a (fst (generate_charts W stats png)) ->
  (a = SaveFigure stats \/ a = Print ChartSaved) /\ word_count stats <> 0%nat.
Proof.
  rewrite generate_charts_run.
  destruct (Nat.eqb_spec (word_count stats) 0) as [H0|H0]; [intros []|].
  destruct (plot W (figure_of stats)); [|intros []].
  intros [<-|[<-|[]]]; auto.
Qed.

Lemma export_report_artifacts (stats : Stats) (format : str) (png : bool)
    (a : effect) :
  In a (fst (export_report W stats format png)) ->
  (format = of_string "csv"%string /\ (a = WriteCsv stats \/ a = Print CsvExported))
  \/ (format = of_string "pdf"%string /\ (a = WritePdf stats \/ a = Print PdfExported)).
Proof.
  rewrite export_report_run. case_bool_decide as Hc.
  - destruct (write_csv W stats); [|intros []].
    intros [<-|[<-|[]]]; left; auto.
  - case_bool_decide as Hp; [|intros []].
    destruct (write_pdf W png stats); [|intros []].
    intros [<-|[<-|[]]]; right; auto.
Qed.

(** The effects of two statements in sequence come from one or the other. *)
Lemma In_sequence {A B : Type} (m : Run A) (k : Run B) (png : bool) (a : effect) :
  In a (fst ((m;; k) png)) ->
  In a (fst (m png)) \/ exists png', In a (fst (k png')).
Proof.
  unfold mbind, Run_bind. destruct (m png) as [out [[x png']|e]]; [|now left].
  destruct (k png') as [out' r] eqn:Hk. cbn [fst].
  rewrite in_app_iff. intros [H|H]; [now left|].
  right. exists png'. now rewrite Hk.
Qed.

Lemma In_finish {A : Type} (r : list effect * result A) (a : effect) :
  In a (finish r) -> In a (fst r) \/ exists e, a = Uncaught e.
Proof.
  destruct r as [out [x|e]]; cbn; [now left|].
  rewrite in_app_iff. intros [H|[<-|[]]]; [now left|right; eauto].
Qed.

(** Where an effect of the main program comes from. *)
Lemma main_effect_origin (file_path choice : str) (a : effect) :
  In a (main U M E W file_path choice) ->
  (exists m, a = Print m)
  \/ (exists e, a = Uncaught e)
  \/ (exists stats, fst (analyze_file U M E file_path) = Some stats
        /\ ((exists png, In a (fst (generate_charts W stats png)))
            \/ (exists png, In a (fst (export_report W stats choice png))))).
Proof.
  unfold main. destruct (analyze_file U M E file_path) as [[stats|] printed].
  - cbn [fst]. intros [<-|H]; [left; eauto|].
    apply in_app_iff in H as [H|H].
    { apply in_map_iff in H as (m & <- & _). left. eauto. }
    apply In_finish in H as [H|H]; [|now right; left].
    apply In_sequence in H as [[<-|[]]|(png1 & H)]; [left; eauto|].
    apply In_sequence in H as [H|(png2 & H)]; [right; right; eauto|].
    apply In_sequence in H as [H|(png3 & [<-|[]])]; [|left; eauto].
    destruct (bool_decide _); [right; right; eauto|destruct H].
  - intros [<-|H]; [left; eauto|].
    rewrite app_nil_r in H. apply in_map_iff in H as (m & <- & _). left. eauto.
Qed.

End DriverFacts.

(** X12.  The empty file: when the file is readable and empty, the analysis
    succeeds with language [en], zero characters, zero lines, no word and an
    empty frequency table; [generate_charts] returns at its guard without
    calling the plotting library, and the main program saves no figure. *)
Theorem empty_file_analysis (U : Unicode) (M : Models) (E : Env) (W : World)
    (file_path : str) (size : Z) :
  read_text E file_path = Return [] ->
  getsize E file_path = Return size ->
  exists stats,
    fst (analyze_file U M E file_path) = Some stats
    /\ language stats = en
    /\ char_count stats = 0%nat
    /\ line_count stats = 0%nat
    /\ words stats = []
    /\ word_count stats = 0%nat
    /\ word_freq stats = ∅
    /\ (forall png, generate_charts W stats png = ([], Return (tt, png)))
    /\ forall choice st, ~ In (SaveFigure st) (main U M E W file_path choice).
Proof.
  intros Hr Hs.
  assert (Hbody : exists a out,
            analyze_sentiment M [] en = (a, out)
            /\ analyze_file U M E file_path =
                 (Some {| file_name := basename E file_path; file_size := size;
                          char_count := 0; line_count := 0; language := en;
                          words := []; word_count := 0; word_freq := ∅;
                          sentiment := a |}, out)).
  { unfold analyze_file, analyze_file_body, mbind, result_bind, mret, result_ret.
    rewrite Hr, Hs. cbn.
    destruct (analyze_sentiment M [] en) as [a out]. now exists a, out. }
  destruct Hbody as (a & out & Ha & Hf).
  eexists. rewrite Hf. cbn [fst].
  split; [reflexivity|]. split; [reflexivity|]. split; [reflexivity|].
  split; [reflexivity|]. split; [reflexivity|]. split; [reflexivity|].
  split; [reflexivity|]. split; [reflexivity|].
  intros choice st H.
  apply main_effect_origin
    in H as [(m & Hm)|[(e & He)|(stats & Hst & [(png & Hg)|(png & He)])]];
    [discriminate Hm|discriminate He| |].
  - rewrite Hf in Hst. injection Hst as <-.
    apply generate_charts_artifacts in Hg as [_ H0]. now apply H0.
  - apply export_report_artifacts in He
      as [[_ [[=]|[=]]]|[_ [[=]|[=]]]].
Qed.

Lemma empty_file_analysis_witness :
  exists stats,
    fst (analyze_file sample_unicode sample_models (sample_env [] 0) sample_path)
    = Some stats
    /\ language stats = en
    /\ char_count stats = 0%nat
    /\ line_count stats = 0%nat
    /\ words stats = []
    /\ word_count stats = 0%nat
    /\ word_freq stats = ∅
    /\ (forall png, generate_charts sample_world stats png = ([], Return (tt, png)))
    /\ forall choice st,
         ~ In (SaveFigure st)
             (main sample_unicode sample_models (sample_env [] 0) sample_world
                sample_path choice).
Proof.
  exact (empty_file_analysis sample_unicode sample_models (sample_env [] 0)
           sample_world sample_path 0 eq_refl eq_refl).
Defined.

(** X13.  The main program writes an artifact only for the dictionary that
    [analyze_file] returned: a figure only if that dictionary has at least
    one word, a CSV report only if the lower-cased answer is exactly [csv], a
    PDF report only if it is exactly [pdf]; it never writes both reports. *)
Theorem main_artifacts_justified (U : Unicode) (M : Models) (E : Env) (W : World)
    (file_path choice : str) (st : Stats) :
  let effects := main U M E W file_path choice in
  (In (SaveFigure st) effects ->
     fst (analyze_file U M E file_path) = Some st /\ word_count st <> 0%nat)
  /\ (In (WriteCsv st) effects ->
     fst (analyze_file U M E file_path) = Some st
     /\ choice = of_string "csv"%string)
  /\ (In (WritePdf st) effects ->
     fst (analyze_file U M E file_path) = Some st
     /\ choice = of_string "pdf"%string)
  /\ (forall st', ~ (In (WriteCsv st) effects /\ In (WritePdf st') effects)).
Proof.
  cbv zeta.
  assert (Hfig : In (SaveFigure st) (main U M E W file_path choice) ->
            fst (analyze_file U M E file_path) = Some st /\ word_count st <> 0%nat).
  { intros H.
    apply main_effect_origin
      in H as [(m & Hm)|[(e & He)|(stats & Hs & [(png & H)|(png & H)])]].
    - discriminate.
    - discriminate.
    - apply generate_charts_artifacts in H as [[[= ->]|[=]] H0]. now split.
    - apply export_report_artifacts in H as [[_ [[=]|[=]]]|[_ [[=]|[=]]]]. }
  assert (Hcsv : In (WriteCsv st) (main U M E W file_path choice) ->
            fst (analyze_file U M E file_path) = Some st
            /\ choice = of_string "csv"%string).
  { intros H.
    apply main_effect_origin
      in H as [(m & Hm)|[(e & He)|(stats & Hs & [(png & H)|(png & H)])]].
    - discriminate.
    - discriminate.
    - apply generate_charts_artifacts in H as [[[=]|[=]] _].
    - apply export_report_artifacts in H as [[Hc [[= ->]|[=]]]|[_ [[=]|[=]]]].
      now split. }
  assert (Hpdf : forall st', In (WritePdf st') (main U M E W file_path choice) ->
            fst (analyze_file U M E file_path) = Some st'
            /\ choice = of_string "pdf"%string).
  { intros st' H.
    apply main_effect_origin
      in H as [(m & Hm)|[(e & He)|(stats & Hs & [(png & H)|(png & H)])]].
    - discriminate.
    - discriminate.
    - apply generate_charts_artifacts in H as [[[=]|[=]] _].
    - apply export_report_artifacts in H as [[_ [[=]|[=]]]|[Hc [[= ->]|[=]]]].
      now split. }
  split; [exact Hfig|]. split; [exact Hcsv|]. split; [apply Hpdf|].
  intros st' [H1 H2]. apply Hcsv in H1 as [_ H1]. apply Hpdf in H2 as [_ H2].
  rewrite H1 in H2. discriminate.
Qed.

(** ** More on detection and tokenization *)

(** X14.  Detection looks for one character anywhere: a concatenation is
    [zh] exactly when one of its parts is, and rearranging the characters of
    a text does not change the answer. *)
Theorem detect_language_anywhere (U : Unicode) (a b : str) :
  (detect_language U (a ++ b) = zh <->
     detect_language U a = zh \/ detect_language U b = zh)
  /\ (a ≡ₚ b -> detect_language U a = detect_language U b).
Proof.
  rewrite !detect_language_existsb. split.
  - rewrite existsb_app.
    destruct (existsb cjk_set a), (existsb cjk_set b); cbn; split; auto;
      intros [|]; congruence.
  - intros Hp.
    assert (H : existsb cjk_set a = existsb cjk_set b).
    { apply eq_true_iff_eq. rewrite !existsb_exists.
      split; intros (c & Hin & Hc); exists c; split; auto.
      - apply list_elem_of_In. rewrite <- Hp. now apply list_elem_of_In.
      - apply list_elem_of_In. rewrite Hp. now apply list_elem_of_In. }
    now rewrite H.
Qed.

Section AsciiFacts.

Lemma ascii_lower_ascii (c : char) : is_ascii c = true -> is_ascii (ascii_lower c) = true.
Proof.
  unfold is_ascii, ascii_lower, is_ascii_upper, between.
  destruct (65 <=? c) eqn:E1, (c <=? 90) eqn:E2; cbn; auto.
  intros _. apply Z.leb_le in E2. apply Z.ltb_lt. lia.
Qed.

Lemma is_word_ascii (U1 U2 : Unicode) (c : char) :
  is_ascii c = true -> is_word U1 c = is_word U2 c.
Proof. unfold is_ascii, is_word. now intros ->. Qed.

Lemma fields_ext (U1 U2 : Unicode) (s : str) :
  (forall c, In c s -> is_word U1 c = is_word U2 c) ->
  fields U1 s = fields U2 s.
Proof.
  induction s as [|c s IH]; intros H; [reflexivity|].
  cbn [fields]. rewrite (H c) by now left.
  rewrite IH; [reflexivity|]. intros d Hd. apply H. now right.
Qed.

Lemma fields_nonempty (U : Unicode) (s : str) : fields U s <> [].
Proof.
  destruct s as [|c s]; [discriminate|].
  cbn [fields]. destruct (is_word U c); [|discriminate].
  destruct (fields U s); discriminate.
Qed.

Lemma fields_app_separator (U : Unicode) (s1 s2 : str) (c : char) :
  is_word U c = false ->
  fields U (s1 ++ c :: s2) = fields U s1 ++ fields U s2.
Proof.
  intros Hc. induction s1 as [|d s1 IH].
  - cbn. now rewrite Hc.
  - cbn [app fields]. rewrite IH.
    destruct (is_word U d); [|reflexivity].
    pose proof (fields_nonempty U s1).
    destruct (fields U s1) as [|r rs]; [congruence|reflexivity].
Qed.

Lemma letter_words_app_separator (U : Unicode) (s1 s2 : str) (c : char) :
  is_word U c = false ->
  letter_words U (s1 ++ c :: s2) = letter_words U s1 ++ letter_words U s2.
Proof.
  intros Hc. unfold letter_words, word_runs.
  now rewrite fields_app_separator, !List.filter_app.
Qed.

End AsciiFacts.

(** X15.  On ASCII text the tokens depend neither on the case of the letters
    nor on the Unicode tables: two ASCII texts that differ only in the case
    of their letters A to Z get the same tokens. *)
Theorem tokenize_ascii_case_insensitive (U1 U2 : Unicode) (M1 M2 : Models)
    (text1 text2 : str) :
  Forall (fun c => is_ascii c = true) text1 ->
  Forall (fun c => is_ascii c = true) text2 ->
  map ascii_lower text1 = map ascii_lower text2 ->
  tokenize_text U1 M1 text1 en = tokenize_text U2 M2 text2 en.
Proof.
  intros H1 H2 Heq. cbn [tokenize_text]. f_equal.
  rewrite !findall_word_pattern. unfold lower.
  rewrite !lower_from_ascii by assumption. rewrite <- Heq.
  unfold letter_words, word_runs. rewrite (fields_ext U1 U2); [reflexivity|].
  intros c Hc. apply is_word_ascii.
  apply in_map_iff in Hc as (d & <- & Hd). apply ascii_lower_ascii.
  rewrite List.Forall_forall in H1. now apply H1.
Qed.

Lemma tokenize_ascii_case_insensitive_witness :
  tokenize_text sample_unicode sample_models
    (of_string "Hello, World"%string) en
  = tokenize_text {| to_lower_full := fun c => [c]; final_sigma := fun _ _ => true;
                     isalnum := fun _ => true |}
      models_without_tagger (of_string "hELLO, wORLD"%string) en.
Proof.
  apply tokenize_ascii_case_insensitive; [| |reflexivity];
    repeat constructor.
Defined.

(** X16.  Tokens do not reach across a separator: for ASCII texts joined by
    an ASCII character that is not a letter, digit or underscore, the tokens
    of the whole are the tokens of the first part followed by those of the
    second. *)
Theorem tokenize_across_separator (U : Unicode) (M : Models)
    (s1 s2 : str) (c : char) (t1 t2 : list str) :
  Forall (fun c => is_ascii c = true) s1 ->
  Forall (fun c => is_ascii c = true) s2 ->
  is_ascii c = true -> is_word U c = false ->
  tokenize_text U M s1 en = Return t1 ->
  tokenize_text U M s2 en = Return t2 ->
  tokenize_text U M (s1 ++ c :: s2) en = Return (t1 ++ t2).
Proof.
  intros H1 H2 Hc Hw. cbn [tokenize_text]. rewrite !findall_word_pattern.
  intros [= <-] [= <-]. f_equal. unfold lower.
  rewrite !lower_from_ascii; try assumption.
  2:{ apply Forall_app. split; [exact H1|]. now constructor. }
  rewrite map_app. cbn [map].
  assert (Hl : ascii_lower c = c).
  { unfold ascii_lower. destruct (is_ascii_upper c) eqn:Up; [|reflexivity].
    unfold is_word in Hw. unfold is_ascii in Hc. rewrite Hc, Up in Hw.
    discriminate. }
  rewrite Hl. now apply letter_words_app_separator.
Qed.

Lemma tokenize_across_separator_witness :
  tokenize_text sample_unicode sample_models
    (of_string "to be"%string ++ 44 :: of_string "or not"%string) en
  = Return (map of_string ["to"; "be"]%string ++ map of_string ["or"; "not"]%string).
Proof.
  apply tokenize_across_separator; try reflexivity; repeat constructor.
Defined.

Lemma Counter_size (l : list (list Z)) :
  size (Counter l) = length (first_occurrences l).
Proof.
  rewrite <- counter_items_to_map.
  rewrite (map_size_list_to_map (M := gmap (list Z)) (counter_items l)
             (counter_items_NoDup l)).
  now rewrite <- counter_items_keys, length_map.
Qed.

Lemma first_occurrences_In (l : list (list Z)) (w : list Z) :
  In w (first_occurrences l) -> In w l.
Proof.
  rewrite <- counter_items_keys. intros H.
  apply in_map_iff in H as ([w' n] & <- & Hin).
  apply list_elem_of_In, counter_items_count in Hin. tauto.
Qed.

(** X17.  The bars of the chart, for a dictionary returned by [analyze_file]:
    [generate_charts] plots as many labels as values, one per distinct word up
    to ten; no word is plotted twice; each value is the count of its word in
    [word_freq]; the values never increase down the list; and no word left out
    has a larger count than a plotted one.  The pie gets as many labels as
    values. *)
Theorem chart_top_words (U : Unicode) (M : Models) (E : Env)
    (file_path : str) (stats : Stats) (printed : list message) :
  analyze_file U M E file_path = (Some stats, printed) ->
  let f := figure_of stats in
  length (bar_labels f) = length (bar_values f)
  /\ length (bar_labels f) = Nat.min 10 (size (word_freq stats))
  /\ NoDup (bar_labels f)
  /\ (forall i w v, bar_labels f !! i = Some w -> bar_values f !! i = Some v ->
        word_freq stats !! w = Some v)
  /\ (forall i j v v', (i <= j)%nat -> bar_values f !! i = Some v ->
        bar_values f !! j = Some v' -> (v' <= v)%nat)
  /\ (forall w n v, word_freq stats !! w = Some n -> ~ In w (bar_labels f) ->
        In v (bar_values f) -> (n <= v)%nat)
  /\ length (pie_values f) = length (pie_labels f).
Proof.
  intros H. cbv zeta.
  destruct (figure_bars stats) as (H1 & H2 & H3 & H4 & H5 & H6 & H7).
  cbv zeta in *.
  apply analyze_file_Some in H as (content & size & tokens & _ & _ & _ & _ & Hst).
  assert (Hw : words stats = tokens) by now rewrite Hst.
  assert (Hf : word_freq stats = Counter tokens) by now rewrite Hst.
  rewrite Hw in *. rewrite Hf.
  split; [exact H1|]. split; [now rewrite Counter_size|]. split; [exact H3|].
  split.
  { intros i w v Hl Hv. destruct (H4 i w v Hl Hv) as [Hin ->].
    apply Counter_lookup_occurrences. split; [reflexivity|].
    apply (count_occ_In (List.list_eq_dec Z.eq_dec)), Hin. }
  split; [exact H5|]. split; [|exact H7].
  intros w n v Hn Hout Hv.
  apply Counter_lookup_occurrences in Hn as [-> Hn].
  apply (H6 w v); [|exact Hout|exact Hv].
  apply (count_occ_In (List.list_eq_dec Z.eq_dec)), Hn.
Qed.

Lemma chart_top_words_witness :
  exists stats printed,
    analyze_file sample_unicode sample_models
      (sample_env (of_string "to be or not to be"%string) 18) sample_path
    = (Some stats, printed)
    /\ bar_labels (figure_of stats) = map of_string ["to"; "be"; "or"; "not"]%string
    /\ bar_values (figure_of stats) = [2; 2; 1; 1]%nat
    /\ (let f := figure_of stats in
        length (bar_labels f) = length (bar_values f)
        /\ length (bar_labels f) = Nat.min 10 (size (word_freq stats))
        /\ NoDup (bar_labels f)
        /\ (forall i w v, bar_labels f !! i = Some w -> bar_values f !! i = Some v ->
              word_freq stats !! w = Some v)
        /\ (forall i j v v', (i <= j)%nat -> bar_values f !! i = Some v ->
              bar_values f !! j = Some v' -> (v' <= v)%nat)
        /\ (forall w n v, word_freq stats !! w = Some n -> ~ In w (bar_labels f) ->
              In v (bar_values f) -> (n <= v)%nat)
        /\ length (pie_values f) = length (pie_labels f)).
Proof.
  eexists _, _. split; [reflexivity|]. split; [reflexivity|].
  split; [reflexivity|].
  eapply (chart_top_words sample_unicode sample_models
            (sample_env (of_string "to be or not to be"%string) 18) sample_path).
  reflexivity.
Defined.

(** X18.  Ties in the chart: for a dictionary returned by [analyze_file] and
    any count [k], the plotted words whose count is [k] come in the order of
    their first occurrence in the text, and they are the first words of the
    text with that count. *)
Theorem chart_ties_first_seen (U : Unicode) (M : Models) (E : Env)
    (file_path : str) (stats : Stats) (printed : list message) (k : nat) :
  analyze_file U M E file_path = (Some stats, printed) ->
  List.filter (fun w => bool_decide (word_freq stats !! w = Some k))
    (bar_labels (figure_of stats))
  `prefix_of`
  List.filter (fun w => bool_decide (word_freq stats !! w = Some k))
    (first_occurrences (words stats)).
Proof.
  intros H. pose proof (figure_ties stats k) as Ht. cbv zeta in Ht.
  destruct (figure_bars stats) as (_ & _ & _ & H4 & _). cbv zeta in H4.
  apply analyze_file_Some in H as (content & size & tokens & _ & _ & _ & _ & Hst).
  assert (Hw : words stats = tokens) by now rewrite Hst.
  assert (Hf : word_freq stats = Counter tokens) by now rewrite Hst.
  rewrite Hw in *. rewrite Hf.
  assert (Hext : forall w, In w tokens ->
            bool_decide (Counter tokens !! w = Some k)
            = (occurrences w tokens =? k)%nat).
  { intros w Hin.
    assert (Hc : Counter tokens !! w = Some (occurrences w tokens)).
    { apply Counter_lookup_occurrences. split; [reflexivity|].
      apply (count_occ_In (List.list_eq_dec Z.eq_dec)), Hin. }
    rewrite Hc. destruct (Nat.eqb_spec (occurrences w tokens) k) as [->|Hne].
    - now apply bool_decide_eq_true.
    - apply bool_decide_eq_false. congruence. }
  rewrite (List.filter_ext_in _ (fun w => (occurrences w tokens =? k)%nat)
             (bar_labels (figure_of stats))).
  - rewrite (List.filter_ext_in _ (fun w => (occurrences w tokens =? k)%nat)
               (first_occurrences tokens)); [exact Ht|].
    intros w Hin. now apply Hext, first_occurrences_In.
  - intros w Hin. apply Hext.
    apply list_elem_of_In, list_elem_of_lookup in Hin as [i Hi].
    assert (Hv : exists v, bar_values (figure_of stats) !! i = Some v).
    { apply lookup_lt_is_Some. destruct (figure_bars stats) as (Hl & _).
      cbv zeta in Hl. rewrite <- Hl. apply lookup_lt_is_Some. now exists w. }
    destruct Hv as [v Hv]. now destruct (H4 i w v Hi Hv).
Qed.

Lemma chart_ties_first_seen_witness :
  exists stats printed,
    analyze_file sample_unicode sample_models
      (sample_env (of_string "or be to not to be"%string) 18) sample_path
    = (Some stats, printed)
    /\ bar_labels (figure_of stats) = map of_string ["be"; "to"; "or"; "not"]%string
    /\ List.filter (fun w => bool_decide (word_freq stats !! w = Some 2%nat))
         (bar_labels (figure_of stats))
       `prefix_of`
       List.filter (fun w => bool_decide (word_freq stats !! w = Some 2%nat))
         (first_occurrences (words stats)).
Proof.
  eexists _, _. split; [reflexivity|]. split; [reflexivity|].
  eapply (chart_ties_first_seen sample_unicode sample_models
            (sample_env (of_string "or be to not to be"%string) 18) sample_path).
  reflexivity.
Defined.

(** X19.  The bars never add up to more than the number of tokens, and with
    at most ten distinct words they account for every token. *)
Theorem chart_values_total (U : Unicode) (M : Models) (E : Env)
    (file_path : str) (stats : Stats) (printed : list message) :
  analyze_file U M E file_path = (Some stats, printed) ->
  (list_sum (bar_values (figure_of stats)) <= word_count stats)%nat
  /\ ((size (word_freq stats) <= 10)%nat ->
      list_sum (bar_values (figure_of stats)) = word_count stats).
Proof.
  intros H. destruct (figure_total stats) as [H1 H2].
  apply analyze_file_Some in H as (content & size & tokens & _ & _ & _ & _ & Hst).
  assert (Hw : words stats = tokens) by now rewrite Hst.
  assert (Hf : word_freq stats = Counter tokens) by now rewrite Hst.
  assert (Hc : word_count stats = length tokens) by now rewrite Hst.
  rewrite Hw in *. rewrite Hf, Hc, Counter_size. now split.
Qed.

Lemma chart_values_total_witness :
  exists stats printed,
    analyze_file sample_unicode sample_models (sample_env sample_en_text 38)
      sample_path = (Some stats, printed)
    /\ ((list_sum (bar_values (figure_of stats)) <= word_count stats)%nat
        /\ ((size (word_freq stats) <= 10)%nat ->
            list_sum (bar_values (figure_of stats)) = word_count stats)).
Proof.
  eexists _, _. split; [reflexivity|].
  eapply (chart_values_total sample_unicode sample_models
            (sample_env sample_en_text 38) sample_path).
  reflexivity.
Defined.

(** X20.  A scorer that raises on an English file with at least one word
    does not stop the analysis: [analyze_file] returns a dictionary with the
    initial sentiment and prints one diagnostic line.  [generate_charts] then
    passes its guard and asks the plotting library for a pie of three zeros;
    what follows is the library's answer.  If it raises, nothing catches the
    exception: no figure is saved and the main program ends after the summary
    line, whatever the export choice. *)
Theorem pie_after_scorer_failure (U : Unicode) (M : Models) (E : Env) (W : World)
    (file_path content : str) (size : Z) (t : str) (tokens : list str) (e : exn) :
  read_text E file_path = Return content ->
  getsize E file_path = Return size ->
  detect_language U content = en ->
  tokenize_text U M content en = Return (t :: tokens) ->
  (vader_polarity_scores M content = Raise e
   \/ exists v, vader_polarity_scores M content = Return v
                /\ textblob_polarity M content = Raise e) ->
  exists stats,
    analyze_file U M E file_path = (Some stats, [SentimentError e])
    /\ sentiment stats = default_sentiment
    /\ word_count stats <> 0%nat
    /\ pie_values (figure_of stats) = [0%float; 0%float; 0%float]
    /\ (forall png,
          generate_charts W stats png =
          match plot W (figure_of stats) with
          | Return _ => ([SaveFigure stats; Print ChartSaved], Return (tt, true))
          | Raise e' => ([], Raise e')
          end)
    /\ (forall e' choice,
          plot W (figure_of stats) = Raise e' ->
          main U M E W file_path choice =
          [Print Analyzing; Print (SentimentError e);
           Print (Summary en Neutral 0.5%float); Uncaught e']).
Proof.
  intros Hr Hs Hl Ht Hfail.
  assert (Ha : analyze_sentiment M content en
               = (default_sentiment, [SentimentError e])).
  { unfold analyze_sentiment. rewrite try_block_run, score_en_run.
    destruct Hfail as [-> | (v & -> & ->)]; reflexivity. }
  assert (Hf : analyze_file U M E file_path =
               (Some {| file_name := basename E file_path; file_size := size;
                        char_count := length content;
                        line_count := count_lines false content;
                        language := en; words := t :: tokens;
                        word_count := length (t :: tokens);
                        word_freq := Counter (t :: tokens);
                        sentiment := default_sentiment |},
                [SentimentError e])).
  { unfold analyze_file, analyze_file_body, mbind, result_bind, mret, result_ret.
    now rewrite Hr, Hs, Hl, Ht, Ha. }
  eexists. split; [exact Hf|]. split; [reflexivity|]. split; [discriminate|].
  split; [reflexivity|]. split.
  - intros png. now rewrite generate_charts_run.
  - intros e' choice He'. unfold main. rewrite Hf.
    match goal with
    | |- context [generate_charts W ?st] =>
        assert (Hg : generate_charts W st (figure_on_disk W) = ([], Raise e'))
          by (rewrite generate_charts_run, He'; reflexivity)
    end.
    unfold mbind, Run_bind, print. cbn beta iota. rewrite Hg. reflexivity.
Qed.

Lemma pie_after_scorer_failure_witness :
  exists stats,
    analyze_file sample_unicode models_without_lexicon
      (sample_env sample_en_text 38) sample_path
    = (Some stats, [SentimentError (of_string "LookupError"%string)])
    /\ pie_values (figure_of stats) = [0%float; 0%float; 0%float]
    /\ main sample_unicode models_without_lexicon (sample_env sample_en_text 38)
         sample_world sample_path (of_string "pdf"%string)
       = [Print Analyzing; Print (SentimentError (of_string "LookupError"%string));
          Print (Summary en Neutral 0.5%float);
          Uncaught (of_string "ValueError"%string)].
Proof.
  destruct (pie_after_scorer_failure sample_unicode models_without_lexicon
              (sample_env sample_en_text 38) sample_world sample_path
              sample_en_text 38 _ _ (of_string "LookupError"%string)
              eq_refl eq_refl eq_refl eq_refl (or_introl eq_refl))
    as (stats & Hf & _ & _ & Hpie & _ & Hmain).
  exists stats. split; [exact Hf|]. split; [exact Hpie|].
  apply Hmain. unfold sample_world, plot. now rewrite Hpie.
Defined.

(** X21.  The image in the PDF report.  [export_report] draws
    [analysis_result.png] into [report.pdf], and the main program exports
    after [generate_charts].  With at least one word and the plotting calls
    returning, the image is there, saved by this run.  Without any word no
    figure is drawn, and the PDF block finds what was on disk when the program
    started.  When a block raises, nothing catches the exception: no report
    is announced and the program ends there. *)
Theorem pdf_report_image (U : Unicode) (M : Models) (E : Env) (W : World)
    (file_path : str) (stats : Stats) (printed : list message) :
  analyze_file U M E file_path = (Some stats, printed) ->
  let export png :=
    match write_pdf W png stats with
    | Return _ => [WritePdf stats; Print PdfExported; Print Finished]
    | Raise e => [Uncaught e]
    end in
  main U M E W file_path (of_string "pdf"%string) =
  Print Analyzing :: map Print printed
  ++ Print (Summary (language stats) (polarity (sentiment stats))
                    (score (sentiment stats)))
  :: (if (word_count stats =? 0)%nat then export (figure_on_disk W)
      else match plot W (figure_of stats) with
           | Return _ => SaveFigure stats :: Print ChartSaved :: export true
           | Raise e => [Uncaught e]
           end).
Proof.
  intros H. cbv zeta. unfold main. rewrite H. do 2 f_equal.
  rewrite bool_decide_eq_true_2
    by (apply list_elem_of_In; right; left; reflexivity).
  unfold mbind, Run_bind, print. cbn beta iota.
  rewrite generate_charts_run.
  destruct (word_count stats =? 0)%nat.
  - rewrite export_report_run.
    rewrite bool_decide_eq_false_2 by discriminate.
    rewrite bool_decide_eq_true_2 by reflexivity.
    now destruct (write_pdf W (figure_on_disk W) stats).
  - destruct (plot W (figure_of stats)); [|reflexivity].
    rewrite export_report_run.
    rewrite bool_decide_eq_false_2 by discriminate.
    rewrite bool_decide_eq_true_2 by reflexivity.
    now destruct (write_pdf W true stats).
Qed.

Lemma pdf_report_image_witness :
  exists stats printed,
    analyze_file sample_unicode sample_models (sample_env [] 0) sample_path
    = (Some stats, printed)
    /\ main sample_unicode sample_models (sample_env [] 0) sample_world
         sample_path (of_string "pdf"%string)
       = [Print Analyzing;
          Print (Summary en Positive ((0.8 + 0.9) / 2)%float);
          Uncaught (of_string "OSError"%string)].
Proof.
  eexists _, _. split; [reflexivity|].
  rewrite (pdf_report_image sample_unicode sample_models (sample_env [] 0)
             sample_world sample_path _ _ eq_refl).
  reflexivity.
Defined.
